(** * AWS-TGW-att.py: transit-gateway attachment custom resource

    A shallow embedding of the CloudFormation custom-resource handler of
    [src/AWS-TGW-att.py] and the properties its specification states.

    The handler is a straight sequence of boto3 / HTTP calls.  It is
    embedded in a small monad that
    - reads the history of calls made so far (the provider may answer
      according to everything that happened before),
    - writes the calls it makes, each with the answer it got, and
    - may raise (Python exceptions; every handler in the source is
      [except Exception], so one kind of exception is enough).

    Logging ([log.info], [log.error], [print]) has no influence on control
    flow or on the calls made and is left out. *)

From Stdlib Require Import String Ascii List Bool DecimalString.
Import ListNotations.
Open Scope string_scope.
Open Scope list_scope.

(* ------------------------------------------------------------------ *)
(** ** Python values and string operations *)

Module Py.

(** The two kinds of value the [cidr] parameter can hold: the handler
    passes a list (the result of [split]); a single string is what the
    parameter was before the 25/03/21 change. *)
Inductive value : Type :=
| Str (s : string)
| List (xs : list string).

Fixpoint list_eqb (xs ys : list string) : bool :=
  match xs, ys with
  | [], [] => true
  | x :: xs', y :: ys' => String.eqb x y && list_eqb xs' ys'
  | _, _ => false
  end.

(** Python [==]: values of different types are never equal. *)
Definition eqb (a b : value) : bool :=
  match a, b with
  | Str s, Str t => String.eqb s t
  | List xs, List ys => list_eqb xs ys
  | _, _ => false
  end.

(** Iterating a string yields its characters. *)
Fixpoint chars (s : string) : list string :=
  match s with
  | EmptyString => []
  | String c s' => String c EmptyString :: chars s'
  end.

(** [for x in v] *)
Definition iter (v : value) : list string :=
  match v with
  | Str s => chars s
  | List xs => xs
  end.

(** [s.replace(c, by)] for a one-character pattern [c]. *)
Fixpoint replace (c : ascii) (by_ : string) (s : string) : string :=
  match s with
  | EmptyString => EmptyString
  | String a s' =>
      if Ascii.eqb a c then by_ ++ replace c by_ s'
      else String a (replace c by_ s')
  end.

(** [s.split(c)] for a one-character separator [c]: never empty,
    [''.split(',') = ['']]. *)
Fixpoint split (c : ascii) (s : string) : list string :=
  match s with
  | EmptyString => [EmptyString]
  | String a s' =>
      if Ascii.eqb a c then EmptyString :: split c s'
      else match split c s' with
           | [] => [String a EmptyString]
           | w :: ws => String a w :: ws
           end
  end.

(** [x in xs] for a list of strings. *)
Definition mem (x : string) (xs : list string) : bool :=
  existsb (String.eqb x) xs.

(** Truth value of [None], [[]] and a non-empty list. *)
Definition truthy {A : Type} (v : option (list A)) : bool :=
  match v with
  | Some (_ :: _) => true
  | _ => false
  end.

(** Does the string contain the character? *)
Fixpoint contains (c : ascii) (s : string) : bool :=
  match s with
  | EmptyString => false
  | String a s' => Ascii.eqb a c || contains c s'
  end.

End Py.

(* ------------------------------------------------------------------ *)
(** ** Data: provider records, the event, the metadata record *)

Record tag := { Key : string; Value : string }.

(** ['Tags'] is absent from a VPC without tags. *)
Record vpc := { VpcId : string; Tags : option (list tag) }.

Record subnet := { SubnetId : string; AvailabilityZone : string }.

(** ["DestinationCidrBlock"] is absent from IPv6 and prefix-list routes;
    when present it is a string. *)
Record route := { DestinationCidrBlock : option string }.

Record route_table := { RouteTableId : string; Routes : list route }.

Record role := { RoleName : string }.

Record resource_properties := {
  Account : string;
  Region : string;
  Vpc_Tags : string;
  CIDR : string;
  Transit_Gateway_Id : string
}.

Record event := {
  RequestType : string;
  ResourceProperties : resource_properties;
  ResponseURL : string;
  StackId : string;
  RequestId : string;
  LogicalResourceId : string
}.

Record context := { log_stream_name : string }.

(** The record [get_vpc_metadata] builds.  ['Subnet'] and ['Route_Tables']
    hold what [get_subnets] and [get_default_route_table] returned, which
    is [None] after a failure. *)
Record metadata := {
  Vpc : string;
  Subnet : option (list string);
  Route_Tables : option (list string)
}.

(** [responseBody] of [send]; [Data] is always the empty dict. *)
Record response_body := {
  Status : string;
  Reason : string;
  PhysicalResourceId : string;
  body_StackId : string;
  body_RequestId : string;
  body_LogicalResourceId : string;
  NoEcho : bool
}.

Definition SUCCESS : string := "SUCCESS".
Definition FAILED : string := "FAILED".

(* ------------------------------------------------------------------ *)
(** ** Calls to the outside world *)

(** A filter of a describe call: [{'Name': n, 'Values': vs}]. *)
Definition api_filter : Type := (string * list string)%type.

Inductive call : Type :=
| list_roles
| create_service_linked_role (AWSServiceName : string)
| describe_vpcs
| describe_subnets (Filters : list api_filter)
| describe_route_tables (Filters : list api_filter)
| describe_route_tables_ids (RouteTableIds : option (list string))
| delete_route (DestinationCidrBlock : Py.value) (RouteTableId : string)
| create_route (RouteTableId DestinationCidrBlock TransitGatewayId : string)
| create_transit_gateway_vpc_attachment
    (TransitGatewayId VpcId : string) (SubnetIds : option (list string))
| sleep (secs : nat)
| http_put (url : string) (body : response_body).

Inductive response : Type :=
| RolesResponse (Roles : list role)
| VpcsResponse (Vpcs : list vpc)
| SubnetsResponse (Subnets : list subnet)
| RouteTablesResponse (RouteTables : list route_table)
| OtherResponse.

(** A call with its answer; [None] when the call raised. *)
Definition logged : Type := (call * option response)%type.
Definition log : Type := list logged.

(** The outside world: what a call returns after a given history. *)
Definition provider : Type := log -> call -> option response.

(* ------------------------------------------------------------------ *)
(** ** The monad *)

Inductive outcome (A : Type) : Type :=
| Ret (a : A)
| Raise.
Arguments Ret {A} a.
Arguments Raise {A}.

(** Given the provider and the history, a computation gives its outcome
    and the calls it made, oldest first. *)
Definition M (A : Type) : Type := provider -> log -> outcome A * log.

Definition ret {A : Type} (a : A) : M A := fun _ _ => (Ret a, []).

Definition raise {A : Type} : M A := fun _ _ => (Raise, []).

Definition bind {A B : Type} (m : M A) (k : A -> M B) : M B :=
  fun boto h =>
    match m boto h with
    | (Ret a, l1) =>
        match k a boto (h ++ l1) with
        | (r, l2) => (r, l1 ++ l2)
        end
    | (Raise, l1) => (Raise, l1)
    end.

(** [try: m  except Exception: handler] *)
Definition try_except {A : Type} (m : M A) (handler : M A) : M A :=
  fun boto h =>
    match m boto h with
    | (Ret a, l1) => (Ret a, l1)
    | (Raise, l1) =>
        match handler boto (h ++ l1) with
        | (r, l2) => (r, l1 ++ l2)
        end
    end.

(** One call to the provider. *)
Definition request (c : call) : M response :=
  fun boto h =>
    match boto h c with
    | Some r => (Ret r, [(c, Some r)])
    | None => (Raise, [(c, None)])
    end.

(** [time.sleep]: recorded, always returns. *)
Definition time_sleep (secs : nat) : M unit :=
  fun _ _ => (Ret tt, [(sleep secs, Some OtherResponse)]).

Declare Scope py_scope.
Delimit Scope py_scope with py.
Notation "x <- m ;; k" := (bind m (fun x => k))
  (at level 61, m at next level, right associativity) : py_scope.
Notation "m ;; k" := (bind m (fun _ => k))
  (at level 61, right associativity) : py_scope.
Open Scope py_scope.

(** A loop whose body updates the loop state. *)
Fixpoint for_fold {A S : Type} (xs : list A) (s : S) (body : A -> S -> M S)
  : M S :=
  match xs with
  | [] => ret s
  | x :: xs' => s' <- body x s ;; for_fold xs' s' body
  end.

(** A loop without state. *)
Fixpoint for_each {A : Type} (xs : list A) (body : A -> M unit) : M unit :=
  match xs with
  | [] => ret tt
  | x :: xs' => body x ;; for_each xs' body
  end.

(** What a loop body with a [return] in it tells its loop. *)
Inductive ctl (S R : Type) : Type :=
| Next (s : S)
| Return (r : R).
Arguments Next {S R} s.
Arguments Return {S R} r.

(** A loop whose body may [return] from the enclosing function. *)
Fixpoint for_in {A S R : Type} (xs : list A) (s : S)
    (body : A -> S -> M (ctl S R)) : M (ctl S R) :=
  match xs with
  | [] => ret (Next s)
  | x :: xs' =>
      c <- body x s ;;
      match c with
      | Next s' => for_in xs' s' body
      | Return r => ret (Return r)
      end
  end.

(** [for x in v] where [v] may be [None]: iterating [None] is a
    [TypeError]. *)
Definition iterable {A : Type} (v : option (list A)) : M (list A) :=
  match v with
  | Some xs => ret xs
  | None => raise
  end.

(** Subscripting a response with a key it does not have is a [KeyError]. *)
Definition get_Roles (r : response) : M (list role) :=
  match r with RolesResponse x => ret x | _ => raise end.
Definition get_Vpcs (r : response) : M (list vpc) :=
  match r with VpcsResponse x => ret x | _ => raise end.
Definition get_Subnets (r : response) : M (list subnet) :=
  match r with SubnetsResponse x => ret x | _ => raise end.
Definition get_RouteTables (r : response) : M (list route_table) :=
  match r with RouteTablesResponse x => ret x | _ => raise end.

(* ------------------------------------------------------------------ *)
(** ** The handler *)

Definition service_role_name : string := "AWSServiceRoleForVPCTransitGateway".

(** [create_service_link_role], lines 255-271.  Nothing is caught here. *)
Definition create_service_link_role : M unit :=
  let service_role_exists := false in
  list_roles <- request list_roles ;;
  roles <- get_Roles list_roles ;;
  let service_role_exists :=
    fold_left
      (fun exists_ role =>
         if String.eqb (RoleName role) service_role_name then true
         else exists_)
      roles service_role_exists in
  (if negb service_role_exists then
     request (create_service_linked_role "transitgateway.amazonaws.com") ;;
     ret tt
   else ret tt) ;;
  ret tt.

(** The body of the loop over the second describe's subnets, lines
    189-193.  [az_subnet_mapping] is a list of one-entry dicts
    [{zone: subnet id}], kept here as a list of pairs; [zone in az] tests
    the key of such a dict. *)
Definition az_insert (az_subnet_mapping : list (string * string)) (sub : subnet)
  : list (string * string) :=
  if negb (existsb (fun az => String.eqb (AvailabilityZone sub) (fst az))
             az_subnet_mapping)
  then az_subnet_mapping ++ [(AvailabilityZone sub, SubnetId sub)]
  else az_subnet_mapping.

(** [get_subnets], lines 159-205. *)
Definition get_subnets (returned_vpc : string) (vpc_tag : string)
  : M (option (list string)) :=
  r <- try_except
         (get_subnet_response <-
            request (describe_subnets [("vpc-id", [returned_vpc]);
                                       ("tag:tgw-attach", [vpc_tag])]) ;;
          entries <- get_Subnets get_subnet_response ;;
          let subnet_list := map SubnetId entries in
          az_subnet_mapping <-
            for_fold subnet_list []
              (fun subnet az_subnet_mapping =>
                 response <- request (describe_subnets
                                        [("subnet-id", [subnet])]) ;;
                 subs <- get_Subnets response ;;
                 ret (fold_left az_insert subs az_subnet_mapping)) ;;
          ret (Next az_subnet_mapping))
         (ret (Return None)) ;;
  match r with
  | Return v => ret v
  | Next az_subnet_mapping => ret (Some (map snd az_subnet_mapping))
  end.

(** [get_default_route_table], lines 208-252. *)
Definition get_default_route_table (returned_vpc : string) (cidr : Py.value)
    (vpc_tag : string) : M (option (list string)) :=
  try_except
    (describe_route_tables_ <-
       request (describe_route_tables [("vpc-id", [returned_vpc]);
                                       ("association.main", ["false"]);
                                       ("tag:tgw-attach", [vpc_tag])]) ;;
     rts <- get_RouteTables describe_route_tables_ ;;
     let route_table_ids := map RouteTableId rts in
     for_each route_table_ids
       (fun route_table =>
          describe_routes <-
            request (describe_route_tables_ids (Some [route_table])) ;;
          describe_routes <- get_RouteTables describe_routes ;;
          match describe_routes with
          | [] => raise
          | rt0 :: _ =>
              for_each (Routes rt0)
                (fun route =>
                   match DestinationCidrBlock route with
                   | Some dest =>
                       for_each (Py.iter cidr)
                         (fun block =>
                            if Py.eqb (Py.Str dest) cidr then
                              request (delete_route (Py.Str block)
                                         route_table) ;;
                              ret tt
                            else ret tt)
                   | None => ret tt
                   end)
          end) ;;
     ret (Some route_table_ids))
    (ret None).

(** [get_vpc_metadata], lines 130-156. *)
Definition get_vpc_metadata (account region vpc_tags : string)
    (cidr : Py.value) : M (option (list metadata)) :=
  let vpc_tags := Py.replace " " "" vpc_tags in
  let vpc_tags := Py.split "," vpc_tags in
  r <- for_in vpc_tags []
         (fun tag returned_metadata =>
            try_except
              (get_vpc_response <- request describe_vpcs ;;
               vpcs <- get_Vpcs get_vpc_response ;;
               returned_metadata <-
                 for_fold vpcs returned_metadata
                   (fun vpc returned_metadata =>
                      match Tags vpc with
                      | Some tags =>
                          for_fold tags returned_metadata
                            (fun tag_value returned_metadata =>
                               if String.eqb (Value tag_value) tag then
                                 let returned_vpc := VpcId vpc in
                                 subnets <- get_subnets returned_vpc "True" ;;
                                 route_tables <-
                                   get_default_route_table returned_vpc cidr
                                     "True" ;;
                                 ret (returned_metadata ++
                                        [{| Vpc := returned_vpc;
                                            Subnet := subnets;
                                            Route_Tables := route_tables |}])
                               else ret returned_metadata)
                      | None => ret returned_metadata
                      end) ;;
               ret (Next returned_metadata))
              (ret (Return None))) ;;
  match r with
  | Return v => ret v
  | Next returned_metadata => ret (Some returned_metadata)
  end.

(** [create_transit_gateways], lines 111-127.  The loop header is outside
    the [try]. *)
Definition create_transit_gateways (vpc_metadata : option (list metadata))
    (tgw_id : string) : M unit :=
  entries <- iterable vpc_metadata ;;
  r <- for_in entries tt
         (fun entry _ =>
            if Py.truthy (Subnet entry) then
              try_except
                (request (create_transit_gateway_vpc_attachment
                            tgw_id (Vpc entry) (Subnet entry)) ;;
                 ret (Next tt))
                (ret (Return tt))
            else ret (Next tt)) ;;
  match r with
  | Return _ => ret tt
  | Next _ => time_sleep 90
  end.

(** [create_vpc_route_to_tgw], lines 77-108. *)
Definition create_vpc_route_to_tgw (vpc_metadata : option (list metadata))
    (tgw_id : string) (cidr : Py.value) : M unit :=
  entries <- iterable vpc_metadata ;;
  for_in entries tt
    (fun entry _ =>
       if Py.truthy (Subnet entry) then
         try_except
           (describe_routes <-
              request (describe_route_tables_ids (Route_Tables entry)) ;;
            describe_routes <- get_RouteTables describe_routes ;;
            for_each describe_routes
              (fun rt =>
                 for_each (Routes rt)
                   (fun route =>
                      match DestinationCidrBlock route with
                      | Some dest =>
                          if Py.eqb (Py.Str dest) cidr then
                            request (delete_route cidr (RouteTableId rt)) ;;
                            ret tt
                          else ret tt
                      | None => ret tt
                      end) ;;
                 for_each (Py.iter cidr)
                   (fun block =>
                      request (create_route (RouteTableId rt) block tgw_id) ;;
                      ret tt)) ;;
            ret (Next tt))
           (ret (Return tt))
       else ret (Next tt)) ;;
  ret tt.

(** [send], lines 297-328.  [physicalResourceId or context.log_stream_name]:
    [None] and the empty string both give the log stream name.  A failed
    PUT is caught and printed. *)
Definition send (ev : event) (ctx : context) (responseStatus : string)
    (physicalResourceId : option string) (noEcho : bool) : M unit :=
  let responseUrl := ResponseURL ev in
  let responseBody :=
    {| Status := responseStatus;
       Reason := "See the details in CloudWatch Log Stream: " ++
                 log_stream_name ctx;
       PhysicalResourceId :=
         match physicalResourceId with
         | Some (String c s) => String c s
         | _ => log_stream_name ctx
         end;
       body_StackId := StackId ev;
       body_RequestId := RequestId ev;
       body_LogicalResourceId := LogicalResourceId ev;
       NoEcho := noEcho |} in
  try_except
    (request (http_put responseUrl responseBody) ;; ret tt)
    (ret tt).

(** [lambda_handler], lines 41-74. *)
Definition lambda_handler (ev : event) (ctx : context) : M unit :=
  let account := Account (ResourceProperties ev) in
  let region := Region (ResourceProperties ev) in
  let vpc_tags := Vpc_Tags (ResourceProperties ev) in
  let cidr := Py.List (Py.split "," (CIDR (ResourceProperties ev))) in
  let tgw_id := Transit_Gateway_Id (ResourceProperties ev) in
  (if Py.mem (RequestType ev) ["Update"; "Create"] then
     create_service_link_role ;;
     vpc_metadata <- get_vpc_metadata account region vpc_tags cidr ;;
     create_transit_gateways vpc_metadata tgw_id ;;
     create_vpc_route_to_tgw vpc_metadata tgw_id cidr ;;
     send ev ctx "SUCCESS" None false
   else
     send ev ctx "FAILED" None false) ;;
  if Py.mem (RequestType ev) ["Delete"] then
    send ev ctx "SUCCESS" None false
  else ret tt.

(* ------------------------------------------------------------------ *)
(** ** Reading a log *)

Definition result {A : Type} (x : outcome A * log) : outcome A := fst x.
Definition made {A : Type} (x : outcome A * log) : log := snd x.

(** The call raised nothing. *)
Definition answered (e : logged) : Prop := snd e <> None.

Definition is_callback (c : call) : bool :=
  match c with http_put _ _ => true | _ => false end.

Definition is_delete_route (c : call) : bool :=
  match c with delete_route _ _ => true | _ => false end.

Definition is_describe_vpcs (c : call) : bool :=
  match c with describe_vpcs => true | _ => false end.

Definition is_create_route (c : call) : bool :=
  match c with create_route _ _ _ => true | _ => false end.

(** The statuses of the callbacks in a log, oldest first. *)
Definition callback_statuses (l : log) : list string :=
  flat_map (fun e => match fst e with
                     | http_put _ b => [Status b]
                     | _ => []
                     end) l.

(** The create-route calls in a log, oldest first. *)
Definition create_route_calls (l : log) : list call :=
  List.filter is_create_route (map fst l).

(** Those of the calls that create a route in the given table. *)
Definition on_table (rtid : string) (cs : list call) : list call :=
  List.filter (fun c => match c with
                        | create_route r _ _ => String.eqb r rtid
                        | _ => false
                        end) cs.

(** How many describe-VPCs calls a log holds. *)
Definition describe_vpcs_count (l : log) : nat :=
  length (List.filter is_describe_vpcs (map fst l)).

(** The subnets the per-subnet describe calls of [get_subnets] returned,
    in the order they were seen. *)
Definition seen_subnets (l : log) : list subnet :=
  flat_map (fun e => match e with
                     | (describe_subnets [(name, _)], Some (SubnetsResponse subs)) =>
                         if String.eqb name "subnet-id" then subs else []
                     | _ => []
                     end) l.

(** The first subnet of a zone in a listing. *)
Definition first_in_zone (az : string) (subs : list subnet) : option string :=
  option_map SubnetId
    (find (fun sub => String.eqb (AvailabilityZone sub) az) subs).

(** The route tables route reconciliation works on: those listed in an
    entry whose subnet list is non-empty. *)
Definition eligible_route_tables (vpc_metadata : list metadata) : list string :=
  flat_map (fun entry =>
              if Py.truthy (Subnet entry) then
                match Route_Tables entry with
                | Some ids => ids
                | None => []
                end
              else []) vpc_metadata.

(** A provider that answers a describe by route-table ids with the tables
    asked for, in the order asked. *)
Definition returns_requested_tables (boto : provider) : Prop :=
  forall h ids r,
    boto h (describe_route_tables_ids ids) = Some r ->
    exists rts, r = RouteTablesResponse rts /\ Some (map RouteTableId rts) = ids.

(** The tag list [get_vpc_metadata] iterates. *)
Definition tag_list (vpc_tags : string) : list string :=
  Py.split "," (Py.replace " " "" vpc_tags).

(** The tags of a VPC; none when ['Tags'] is absent. *)
Definition vpc_tags_of (v : vpc) : list tag :=
  match Tags v with Some ts => ts | None => [] end.

(** One VPC id per tag of a VPC whose value is [tag_], VPC by VPC. *)
Definition vpc_matches (tag_ : string) (vpcs : list vpc) : list string :=
  flat_map (fun v =>
              flat_map (fun tag_value =>
                          if String.eqb (Value tag_value) tag_ then [VpcId v] else [])
                       (vpc_tags_of v)) vpcs.

(** The VPC listings the answered describe-VPCs calls of a log returned,
    oldest first. *)
Definition described_vpcs (l : log) : list (list vpc) :=
  flat_map (fun e => match e with
                     | (describe_vpcs, Some (VpcsResponse vpcs)) => [vpcs]
                     | _ => []
                     end) l.

(** The VPC ids of the records discovery builds from a tag list and the
    listing each tag's describe-VPCs call returned: one per match of a
    listed tag with a tag of a VPC. *)
Definition matched_vpcs (tags : list string) (listings : list (list vpc)) : list string :=
  flat_map (fun p => vpc_matches (fst p) (snd p)) (combine tags listings).

(** No call follows one that raised. *)
Definition raising_call_is_last (l : log) : Prop :=
  forall before c after, l = before ++ (c, None) :: after -> after = [].

(** "At most one record per VPC": the VPC ids of the records differ. *)
Definition one_record_per_vpc : Prop :=
  forall account region vpc_tags cidr boto h md,
    result (get_vpc_metadata account region vpc_tags cidr boto h) = Ret (Some md) ->
    NoDup (map Vpc md).

(** "A failure at one entry does not keep the later entries from being
    attached". *)
Definition later_entries_still_attached : Prop :=
  forall boto tgw_id h before entry after,
    let run := create_transit_gateways (Some (before ++ entry :: after)) tgw_id boto h in
    In (create_transit_gateway_vpc_attachment tgw_id (Vpc entry) (Subnet entry), None)
       (made run) ->
    forall later,
      In later after -> Py.truthy (Subnet later) = true ->
      In (create_transit_gateway_vpc_attachment tgw_id (Vpc later) (Subnet later))
         (map fst (made run)).

(** "A failure at one entry does not keep the later entries from getting
    their routes". *)
Definition later_entries_still_routed : Prop :=
  forall boto tgw_id blocks h before entry after,
    let run := create_vpc_route_to_tgw (Some (before ++ entry :: after)) tgw_id
                 (Py.List blocks) boto h in
    In (describe_route_tables_ids (Route_Tables entry), None) (made run) ->
    forall later,
      In later after -> Py.truthy (Subnet later) = true ->
      In (describe_route_tables_ids (Route_Tables later)) (map fst (made run)).

(** Every call of the log is one of these. *)
Definition emits {A : Type} (P : logged -> Prop) (m : M A) : Prop :=
  forall boto h, Forall P (made (m boto h)).

(** Kinds of call a log may be free of. *)
Definition not_callback (e : logged) : Prop := is_callback (fst e) = false.

Definition not_delete_route (e : logged) : Prop := is_delete_route (fst e) = false.

Definition not_describe_vpcs (e : logged) : Prop := is_describe_vpcs (fst e) = false.

(** A computation without a [try]: a raising call ends it, so it is the
    last one made, and a computation that returned saw every call answered. *)
Definition strict {A : Type} (m : M A) : Prop :=
  forall boto h,
    raising_call_is_last (made (m boto h)) /\
    (forall a, result (m boto h) = Ret a -> Forall answered (made (m boto h))).

(** A loop body with a [try] that returns from the function: the raising
    call is still the last one, and going on to the next element means
    every call was answered. *)
Definition stops_at_failure {S R : Type} (m : M (ctl S R)) : Prop :=
  forall boto h,
    raising_call_is_last (made (m boto h)) /\
    (forall s, result (m boto h) = Ret (Next s) -> Forall answered (made (m boto h))).

(* ------------------------------------------------------------------ *)
(** ** A small account to run the handler on *)

Module Example.

Definition properties : resource_properties :=
  {| Account := "111122223333";
     Region := "eu-west-1";
     Vpc_Tags := "prod, shared";
     CIDR := "10.0.0.0/16,192.168.1.0/24";
     Transit_Gateway_Id := "tgw-1" |}.

Definition lifecycle_event (request_type : string) : event :=
  {| RequestType := request_type;
     ResourceProperties := properties;
     ResponseURL := "https://cloudformation.example/response";
     StackId := "stack-1";
     RequestId := "request-1";
     LogicalResourceId := "TgwAttachment" |}.

Definition lambda_context : context := {| log_stream_name := "2021/03/25/stream" |}.

Definition table (id : string) : route_table :=
  {| RouteTableId := id;
     Routes := [{| DestinationCidrBlock := Some "10.0.0.0/16" |};
                {| DestinationCidrBlock := None |}] |}.

(** One VPC carrying two tags of value [prod], two tagged subnets in the
    same zone and a third in another, one tagged route table, no role. *)
Definition aws : provider :=
  fun _ c =>
    match c with
    | list_roles => Some (RolesResponse [{| RoleName := "Admin" |}])
    | describe_vpcs =>
        Some (VpcsResponse
                [{| VpcId := "vpc-1";
                    Tags := Some [{| Key := "Name"; Value := "prod" |};
                                  {| Key := "Env"; Value := "prod" |}] |};
                 {| VpcId := "vpc-2"; Tags := None |}])
    | describe_subnets [(name, [v])] =>
        if String.eqb name "subnet-id" then
          Some (SubnetsResponse
                  [{| SubnetId := v;
                      AvailabilityZone :=
                        if String.eqb v "sn-3" then "eu-west-1b" else "eu-west-1a" |}])
        else None
    | describe_subnets _ =>
        Some (SubnetsResponse
                [{| SubnetId := "sn-1"; AvailabilityZone := "eu-west-1a" |};
                 {| SubnetId := "sn-2"; AvailabilityZone := "eu-west-1a" |};
                 {| SubnetId := "sn-3"; AvailabilityZone := "eu-west-1b" |}])
    | describe_route_tables _ => Some (RouteTablesResponse [table "rtb-1"])
    | describe_route_tables_ids (Some ids) =>
        Some (RouteTablesResponse (map table ids))
    | describe_route_tables_ids None => None
    | _ => Some OtherResponse
    end.

(** The same account with the role already there. *)
Definition aws_with_role : provider :=
  fun h c =>
    match c with
    | list_roles =>
        Some (RolesResponse [{| RoleName := "Admin" |};
                             {| RoleName := service_role_name |}])
    | _ => aws h c
    end.

(** describe-VPCs is refused. *)
Definition aws_describe_vpcs_denied : provider :=
  fun h c =>
    match c with
    | describe_vpcs => None
    | _ => aws h c
    end.

(** The attachment of [vpc-b] is refused, and so is the description of
    [rtb-b]. *)
Definition aws_vpc_b_denied : provider :=
  fun h c =>
    match c with
    | create_transit_gateway_vpc_attachment _ vpc_id _ =>
        if String.eqb vpc_id "vpc-b" then None else Some OtherResponse
    | describe_route_tables_ids (Some ["rtb-b"]) => None
    | _ => aws h c
    end.

Definition entry_a : metadata :=
  {| Vpc := "vpc-a"; Subnet := Some ["sn-a"]; Route_Tables := Some ["rtb-a1"; "rtb-a2"] |}.
Definition entry_b : metadata :=
  {| Vpc := "vpc-b"; Subnet := Some ["sn-b"]; Route_Tables := Some ["rtb-b"] |}.
Definition entry_c : metadata :=
  {| Vpc := "vpc-c"; Subnet := Some ["sn-c"]; Route_Tables := Some ["rtb-c"] |}.
(** No subnet: not eligible. *)
Definition entry_d : metadata :=
  {| Vpc := "vpc-d"; Subnet := Some []; Route_Tables := Some ["rtb-d"] |}.

End Example.

(* ------------------------------------------------------------------ *)
(** ** More ways to read a log *)

Definition is_attachment (c : call) : bool :=
  match c with create_transit_gateway_vpc_attachment _ _ _ => true | _ => false end.

(** The describe calls: they read and change nothing. *)
Definition is_describe (c : call) : bool :=
  match c with
  | describe_vpcs | describe_subnets _ | describe_route_tables _
  | describe_route_tables_ids _ => true
  | _ => false
  end.

(** The calls of [create_service_link_role]. *)
Definition is_role_call (c : call) : bool :=
  match c with
  | list_roles | create_service_linked_role _ => true
  | _ => false
  end.

(** The calls of [create_transit_gateways]. *)
Definition is_attachment_step (c : call) : bool :=
  match c with
  | create_transit_gateway_vpc_attachment _ _ _ | sleep _ => true
  | _ => false
  end.

(** The calls of [create_vpc_route_to_tgw]. *)
Definition is_route_step (c : call) : bool :=
  match c with
  | describe_route_tables_ids _ | delete_route _ _ | create_route _ _ _ => true
  | _ => false
  end.

(** The calls of a log, without their answers. *)
Definition calls (l : log) : list call := map fst l.

(** The attachment request for a metadata entry. *)
Definition attachment_of (tgw_id : string) (entry : metadata) : call :=
  create_transit_gateway_vpc_attachment tgw_id (Vpc entry) (Subnet entry).

(** The entries [create_transit_gateways] and [create_vpc_route_to_tgw]
    work on. *)
Definition with_subnets (vpc_metadata : list metadata) : list metadata :=
  List.filter (fun entry => Py.truthy (Subnet entry)) vpc_metadata.

(** The calls of the role step. *)
Definition role_call (e : logged) : Prop :=
  fst e = list_roles \/
  fst e = create_service_linked_role "transitgateway.amazonaws.com".

(** A describe call. *)
Definition describe_call (e : logged) : Prop := is_describe (fst e) = true.

(** The calls of the attachment step for a gateway: requests to attach a
    non-empty list of subnets to that gateway, and the wait of 90. *)
Definition attachment_call (tgw_id : string) (e : logged) : Prop :=
  match fst e with
  | create_transit_gateway_vpc_attachment tgw _ subnets =>
      tgw = tgw_id /\ Py.truthy subnets = true
  | sleep secs => secs = 90
  | _ => False
  end.

(** The calls of the route step for a gateway and a CIDR list: describes
    by table ids, and routes to that gateway for a block of the list. *)
Definition route_call (tgw_id : string) (blocks : list string) (e : logged) : Prop :=
  match fst e with
  | describe_route_tables_ids _ => True
  | create_route _ block tgw => tgw = tgw_id /\ In block blocks
  | _ => False
  end.

(** The callbacks of an event: a PUT to its URL, SUCCESS or FAILED, with
    the ids of the event and the log stream as physical id. *)
Definition callback_of (ev : event) (ctx : context) (e : logged) : Prop :=
  match fst e with
  | http_put url body =>
      url = ResponseURL ev /\
      (Status body = SUCCESS \/ Status body = FAILED) /\
      Reason body
      = ("See the details in CloudWatch Log Stream: " ++ log_stream_name ctx)%string /\
      PhysicalResourceId body = log_stream_name ctx /\
      body_StackId body = StackId ev /\
      body_RequestId body = RequestId ev /\
      body_LogicalResourceId body = LogicalResourceId ev /\
      NoEcho body = false
  | _ => False
  end.

(** The answer holds at least one route table. *)
Definition has_table (answer : option response) : Prop :=
  exists rt rts, answer = Some (RouteTablesResponse (rt :: rts)).

(** The answer is a listing of subnets. *)
Definition has_subnets (answer : option response) : Prop :=
  exists subs, answer = Some (SubnetsResponse subs).

(** The answer is a listing of VPCs. *)
Definition has_vpcs (answer : option response) : Prop :=
  exists vpcs, answer = Some (VpcsResponse vpcs).

(** A metadata record holds what the two lookups returned for its VPC,
    the subnets first and the route tables right after. *)
Definition looked_up (boto : provider) (cidr : Py.value) (record : metadata) : Prop :=
  exists h,
    result (get_subnets (Vpc record) "True" boto h) = Ret (Subnet record) /\
    result (get_default_route_table (Vpc record) cidr "True" boto
              (h ++ made (get_subnets (Vpc record) "True" boto h)))
    = Ret (Route_Tables record).

(** [s.count(c)] for a one-character [c]. *)
Fixpoint count_char (c : ascii) (s : string) : nat :=
  match s with
  | EmptyString => 0
  | String a s' => (if Ascii.eqb a c then 1 else 0) + count_char c s'
  end.

(** [c.join(pieces)] for a one-character [c]. *)
Fixpoint join (c : ascii) (pieces : list string) : string :=
  match pieces with
  | [] => EmptyString
  | [w] => w
  | w :: ws => (w ++ String c (join c ws))%string
  end.

(* ------------------------------------------------------------------ *)
(** ** Logging setup *)

Module Logging.

(** The levels of the [logging] module. *)
Definition INFO : nat := 20.
Definition WARNING : nat := 30.
Definition ERROR : nat := 40.

(** The root logger, the global [log]: its level, and the records it has
    let through to its handlers, oldest first, each with its level. *)
Record logger := { level : nat; records : list (nat * string) }.

(** [log.setLevel(n)] *)
Definition setLevel (n : nat) (root : logger) : logger :=
  {| level := n; records := records root |}.

(** [log.getEffectiveLevel()], for the root logger after a [setLevel]. *)
Definition getEffectiveLevel (root : logger) : nat := level root.

(** [log.info], [log.warning], [log.error]: the record passes when its
    level is at least the logger's. *)
Definition emit (lvl : nat) (msg : string) (root : logger) : logger :=
  if Nat.leb (getEffectiveLevel root) lvl then
    {| level := level root; records := records root ++ [(lvl, msg)] |}
  else root.

Definition info : string -> logger -> logger := emit INFO.
Definition warning : string -> logger -> logger := emit WARNING.
Definition error : string -> logger -> logger := emit ERROR.

(** [c.upper()] for an ASCII character. *)
Definition upper_char (c : ascii) : ascii :=
  let n := nat_of_ascii c in
  if Nat.leb 97 n && Nat.leb n 122 then ascii_of_nat (n - 32) else c.

(** [s.upper()] for an ASCII string.  Python's [upper] also maps letters
    outside ASCII, a few of them onto ASCII capitals (a dotless i gives
    [I]); for a value with such letters this model differs. *)
Fixpoint upper (s : string) : string :=
  match s with
  | EmptyString => EmptyString
  | String c s' => String (upper_char c) (upper s')
  end.

(** [str(n)] *)
Definition str (n : nat) : string := NilEmpty.string_of_uint (Nat.to_uint n).

(** [d.get(k)] for a dict written as its items; [k in d] is [get] being
    [Some]. *)
Fixpoint get (d : list (string * nat)) (k : string) : option nat :=
  match d with
  | [] => None
  | (k', v) :: d' => if String.eqb k k' then Some v else get d' k
  end.

(** [os.environ], as far as [setup_logging] reads it: the value of a
    variable, [None] when it is not set. *)
Definition environ : Type := string -> option string.

Definition unrecognised_message : string :=
  "The logging_level environment variable is not set                       to INFO, WARNING, or ERROR.                       The log level is set to ERROR".

(** [setup_logging], lines 274-294.  [log_levels['ERROR']] is 40: the
    key is in the literal dict. *)
Definition setup_logging (env : environ) (root : logger) : logger :=
  let log_levels := [("INFO", 20); ("WARNING", 30); ("ERROR", 40)] in
  let level_ERROR := match get log_levels "ERROR" with Some n => n | None => 0 end in
  let root :=
    match env "logging_level" with
    | Some value =>
        let log_level := upper value in
        match get log_levels log_level with
        | Some n => setLevel n root
        | None =>
            let root := setLevel level_ERROR root in
            error unrecognised_message root
        end
    | None =>
        let root := setLevel level_ERROR root in
        let root := warning "The logging_level environment variable is not set." root in
        warning "Setting the log level to ERROR" root
    end in
  info ("Logging setup complete - set to log level " ++ str (getEffectiveLevel root))%string
    root.

End Logging.

(* ------------------------------------------------------------------ *)
(** ** Tags with spaces, and tables listed more than once *)

(** A VPC without its tags whose value holds a space. *)
Definition drop_spaced_tags (v : vpc) : vpc :=
  {| VpcId := VpcId v;
     Tags := option_map
               (List.filter (fun tag_value => negb (Py.contains " " (Value tag_value))))
               (Tags v) |}.



(* ------------------------------------------------------------------ *)
(** ** More of the example account *)

Module Example2.

(** Every attachment is refused. *)
Definition aws_attachments_denied : provider :=
  fun h c =>
    match c with
    | create_transit_gateway_vpc_attachment _ _ _ => None
    | _ => Example.aws h c
    end.

(** The variable set to [info], to [verbose], and not set. *)
Definition env_info : Logging.environ :=
  fun name => if String.eqb name "logging_level" then Some "info" else None.
Definition env_verbose : Logging.environ :=
  fun name => if String.eqb name "logging_level" then Some "verbose" else None.
Definition env_empty : Logging.environ := fun _ => None.

(** A logger as Python starts it: level WARNING, nothing logged. *)
Definition fresh_logger : Logging.logger :=
  {| Logging.level := Logging.WARNING; Logging.records := [] |}.

(** Two VPCs, one tagged [my tag] and one tagged [mytag]. *)
Definition aws_spaced_tags : provider :=
  fun h c =>
    match c with
    | describe_vpcs =>
        Some (VpcsResponse
                [{| VpcId := "vpc-s";
                    Tags := Some [{| Key := "Name"; Value := "my tag" |}] |};
                 {| VpcId := "vpc-t";
                    Tags := Some [{| Key := "Name"; Value := "mytag" |}] |}])
    | _ => Example.aws h c
    end.


(** What discovery builds on the example account for the tag [prod]: two
    records for [vpc-1]. *)
Definition discovered : list metadata :=
  [{| Vpc := "vpc-1"; Subnet := Some ["sn-1"; "sn-3"]; Route_Tables := Some ["rtb-1"] |};
   {| Vpc := "vpc-1"; Subnet := Some ["sn-1"; "sn-3"]; Route_Tables := Some ["rtb-1"] |}].


End Example2.

(* ------------------------------------------------------------------ *)
(** ** Laws of the monad *)

Section Laws.

Context {A B : Type}.

Lemma bind_ret_l (a : A) (k : A -> M B) boto h :
  bind (ret a) k boto h = k a boto h.
Proof.
  unfold bind, ret. rewrite app_nil_r. now destruct (k a boto h).
Qed.

Lemma bind_run (m : M A) (k : A -> M B) boto h :
  bind m k boto h =
    match result (m boto h) with
    | Ret a => (result (k a boto (h ++ made (m boto h))),
                made (m boto h) ++ made (k a boto (h ++ made (m boto h))))
    | Raise => (Raise, made (m boto h))
    end.
Proof.
  unfold bind, result, made. destruct (m boto h) as [[a|] l1]; cbn; [|easy].
  now destruct (k a boto (h ++ l1)).
Qed.

Lemma try_except_run (m handler : M A) boto h :
  try_except m handler boto h =
    match result (m boto h) with
    | Ret a => (Ret a, made (m boto h))
    | Raise => (result (handler boto (h ++ made (m boto h))),
                made (m boto h) ++ made (handler boto (h ++ made (m boto h))))
    end.
Proof.
  unfold try_except, result, made. destruct (m boto h) as [[a|] l1]; cbn; [easy|].
  now destruct (handler boto (h ++ l1)).
Qed.

Lemma request_made (c : call) boto h : made (request c boto h) = [(c, boto h c)].
Proof. unfold request, made. now destruct (boto h c). Qed.

Lemma request_result (c : call) boto h :
  result (request c boto h) =
    match boto h c with Some r => Ret r | None => Raise end.
Proof. unfold request, result. now destruct (boto h c). Qed.

End Laws.

Section Emits.

Context {A B : Type} (P : logged -> Prop).

Lemma emits_ret (a : A) : emits P (ret a).
Proof. intros boto h. constructor. Qed.

Lemma emits_raise : emits P (@raise A).
Proof. intros boto h. constructor. Qed.

Lemma emits_bind (m : M A) (k : A -> M B) :
  emits P m -> (forall a, emits P (k a)) -> emits P (bind m k).
Proof.
  intros Hm Hk boto h. rewrite bind_run. specialize (Hm boto h).
  destruct (result (m boto h)); cbn; [|exact Hm].
  apply Forall_app. split; [exact Hm | apply Hk].
Qed.

Lemma emits_try_except (m handler : M A) :
  emits P m -> emits P handler -> emits P (try_except m handler).
Proof.
  intros Hm Hh boto h. rewrite try_except_run. specialize (Hm boto h).
  destruct (result (m boto h)); cbn; [exact Hm|].
  apply Forall_app. split; [exact Hm | apply Hh].
Qed.

Lemma emits_request (c : call) : (forall r, P (c, r)) -> emits P (request c).
Proof.
  intros Hc boto h. rewrite request_made. constructor; [apply Hc | constructor].
Qed.

End Emits.

Lemma emits_for_each {A : Type} (P : logged -> Prop) (xs : list A)
    (body : A -> M unit) :
  (forall x, emits P (body x)) -> emits P (for_each xs body).
Proof.
  intros Hb. induction xs as [|x xs IH]; cbn.
  - apply emits_ret.
  - apply emits_bind; [apply Hb | intros _; exact IH].
Qed.

Lemma emits_for_fold {A S : Type} (P : logged -> Prop) (xs : list A) (s : S)
    (body : A -> S -> M S) :
  (forall x s', emits P (body x s')) -> emits P (for_fold xs s body).
Proof.
  intros Hb. revert s. induction xs as [|x xs IH]; intros s; cbn.
  - apply emits_ret.
  - apply emits_bind; [apply Hb | intros s'; apply IH].
Qed.

Lemma emits_for_in {A S R : Type} (P : logged -> Prop) (xs : list A) (s : S)
    (body : A -> S -> M (ctl S R)) :
  (forall x s', emits P (body x s')) -> emits P (for_in xs s body).
Proof.
  intros Hb. revert s. induction xs as [|x xs IH]; intros s; cbn.
  - apply emits_ret.
  - apply emits_bind; [apply Hb | intros [s'|r]; [apply IH | apply emits_ret]].
Qed.

Lemma emits_iterable {A : Type} (P : logged -> Prop) (v : option (list A)) :
  emits P (iterable v).
Proof. destruct v; [apply emits_ret | apply emits_raise]. Qed.

Lemma emits_get_Roles P r : emits P (get_Roles r).
Proof. destruct r; first [apply emits_ret | apply emits_raise]. Qed.
Lemma emits_get_Vpcs P r : emits P (get_Vpcs r).
Proof. destruct r; first [apply emits_ret | apply emits_raise]. Qed.
Lemma emits_get_Subnets P r : emits P (get_Subnets r).
Proof. destruct r; first [apply emits_ret | apply emits_raise]. Qed.
Lemma emits_get_RouteTables P r : emits P (get_RouteTables r).
Proof. destruct r; first [apply emits_ret | apply emits_raise]. Qed.

(** Breaks a computation into its calls. *)
Ltac emits_step :=
  first
    [ apply emits_ret
    | apply emits_raise
    | apply emits_get_Roles
    | apply emits_get_Vpcs
    | apply emits_get_Subnets
    | apply emits_get_RouteTables
    | apply emits_iterable
    | apply emits_bind; [|intros ?]
    | apply emits_try_except
    | apply emits_for_each; intros ?
    | apply emits_for_fold; intros ? ?
    | apply emits_for_in; intros ? ?
    | apply emits_request; intros ?
    | match goal with |- emits _ (if ?b then _ else _) => destruct b end
    | match goal with |- emits _ (match ?x with _ => _ end) => destruct x end ].

(* ------------------------------------------------------------------ *)
(** ** The callback sender and the role step *)

(** [send] makes one PUT to the event's URL, carrying the status, and
    returns whether or not the PUT went through. *)
Lemma send_run ev ctx status pid noecho boto h :
  exists body,
    Status body = status /\
    send ev ctx status pid noecho boto h =
      (Ret tt, [(http_put (ResponseURL ev) body,
                 boto h (http_put (ResponseURL ev) body))]).
Proof.
  unfold send.
  match goal with |- context [http_put _ ?b] => exists b end.
  split; [reflexivity|]. unfold try_except, bind, request, ret.
  now destruct (boto h _).
Qed.

Lemma callback_statuses_none (l : log) :
  Forall not_callback l -> callback_statuses l = [].
Proof.
  induction 1 as [|[c r] l Hc _ IH]; [reflexivity|].
  unfold callback_statuses in *. cbn. rewrite IH.
  unfold not_callback in Hc. cbn in Hc. now destruct c.
Qed.

Lemma create_service_link_role_no_callback :
  emits not_callback create_service_link_role.
Proof. unfold create_service_link_role. repeat emits_step; reflexivity. Qed.

Lemma mem_create_update (s : string) :
  s <> "Create" -> s <> "Update" -> Py.mem s ["Update"; "Create"] = false.
Proof.
  intros Hc Hu. unfold Py.mem. cbn.
  apply String.eqb_neq in Hc, Hu. now rewrite Hc, Hu.
Qed.

Lemma mem_delete (s : string) : s <> "Delete" -> Py.mem s ["Delete"] = false.
Proof.
  intros Hd. unfold Py.mem. cbn. apply String.eqb_neq in Hd. now rewrite Hd.
Qed.

(** C1.  What the handler does with a Delete event: it makes no provider
    call, but it sends two callbacks, FAILED first (from the [else] of the
    Create/Update test) and SUCCESS second. *)
Theorem lambda_handler_delete_sends_failed_then_success ev ctx boto h :
  RequestType ev = "Delete" ->
  result (lambda_handler ev ctx boto h) = Ret tt /\
  callback_statuses (made (lambda_handler ev ctx boto h)) = [FAILED; SUCCESS] /\
  Forall (fun e => is_callback (fst e) = true) (made (lambda_handler ev ctx boto h)).
Proof.
  intros Hd. unfold lambda_handler. rewrite Hd.
  change (Py.mem "Delete" ["Update"; "Create"]) with false.
  change (Py.mem "Delete" ["Delete"]) with true. cbv iota.
  rewrite bind_run.
  destruct (send_run ev ctx "FAILED" None false boto h) as (b1 & Hb1 & ->).
  cbn [result made fst snd].
  destruct (send_run ev ctx "SUCCESS" None false boto
              (h ++ [(http_put (ResponseURL ev) b1,
                      boto h (http_put (ResponseURL ev) b1))]))
    as (b2 & Hb2 & ->).
  cbn. rewrite Hb1, Hb2. repeat split; repeat constructor.
Qed.

(** C8.  An event whose request type is none of Create, Update and Delete
    gets one callback, FAILED, and no other call is made. *)
Theorem lambda_handler_unknown_request_type ev ctx boto h :
  RequestType ev <> "Create" ->
  RequestType ev <> "Update" ->
  RequestType ev <> "Delete" ->
  result (lambda_handler ev ctx boto h) = Ret tt /\
  exists body answer,
    made (lambda_handler ev ctx boto h) = [(http_put (ResponseURL ev) body, answer)] /\
    Status body = FAILED.
Proof.
  intros Hc Hu Hd. unfold lambda_handler.
  rewrite (mem_create_update _ Hc Hu), (mem_delete _ Hd).
  rewrite bind_run.
  destruct (send_run ev ctx "FAILED" None false boto h) as (b1 & Hb1 & ->).
  cbn. split; [reflexivity|]. now exists b1, (boto h (http_put (ResponseURL ev) b1)).
Qed.

(** C9.  [create_service_link_role] asks for the role to be created exactly
    when the listing holds no role of the service's name; when the listing
    holds one, the listing is the only call and the function returns. *)
Theorem create_service_link_role_check_then_create boto h roles :
  boto h list_roles = Some (RolesResponse roles) ->
  let run := create_service_link_role boto h in
  let listed := existsb (fun r => String.eqb (RoleName r) service_role_name) roles in
  (In (create_service_linked_role "transitgateway.amazonaws.com") (map fst (made run))
   <-> listed = false) /\
  (forall c, In c (map fst (made run)) ->
             c = list_roles \/ c = create_service_linked_role "transitgateway.amazonaws.com") /\
  (listed = true ->
   result run = Ret tt /\ made run = [(list_roles, Some (RolesResponse roles))]).
Proof.
  intros Hl. cbv zeta.
  assert (Hfold : forall b,
             fold_left (fun (exists_ : bool) role =>
                          if String.eqb (RoleName role) service_role_name then true
                          else exists_) roles b
             = existsb (fun r => String.eqb (RoleName r) service_role_name) roles || b).
  { clear Hl. induction roles as [|r roles IH]; intros b; cbn; [reflexivity|].
    rewrite IH. destruct (String.eqb (RoleName r) service_role_name); cbn;
      [apply orb_true_r | reflexivity]. }
  unfold create_service_link_role, bind, request, made, result.
  rewrite Hl. cbn. rewrite Hfold, orb_false_r.
  destruct (existsb _ roles); cbn.
  - repeat split; try discriminate.
    + intros [Hin|[]]. discriminate Hin.
    + intros c [<-|[]]. now left.
  - destruct (boto _ (create_service_linked_role _)); cbn.
    all: repeat split; try discriminate; auto.
    all: intros c [<-|[<-|[]]]; auto.
Qed.

(* ------------------------------------------------------------------ *)
(** ** Discovery fails: no callback *)

Lemma split_not_nil (c : ascii) (s : string) :
  exists w ws, Py.split c s = w :: ws.
Proof.
  destruct s as [|a s]; cbn; [now eexists _, _|].
  destruct (Ascii.eqb a c); [now eexists _, _|].
  destruct (Py.split c s); now eexists _, _.
Qed.

(** When the first describe-VPCs call raises, discovery returns [None]. *)
Lemma get_vpc_metadata_fails account region vpc_tags cidr boto h :
  boto h describe_vpcs = None ->
  get_vpc_metadata account region vpc_tags cidr boto h
  = (Ret None, [(describe_vpcs, None)]).
Proof.
  intros Hdv. unfold get_vpc_metadata.
  destruct (split_not_nil "," (Py.replace " " "" vpc_tags)) as (w & ws & ->).
  cbn [for_in]. unfold bind, try_except, request, ret. now rewrite Hdv.
Qed.

(** C2.  A Create or Update event for which describe-VPCs raises: discovery
    returns [None], iterating it in [create_transit_gateways] raises, and
    the handler ends with that exception, having sent no callback. *)
Theorem lambda_handler_raises_without_callback ev ctx boto h :
  Py.mem (RequestType ev) ["Update"; "Create"] = true ->
  (forall h', boto h' describe_vpcs = None) ->
  result (lambda_handler ev ctx boto h) = Raise /\
  callback_statuses (made (lambda_handler ev ctx boto h)) = [].
Proof.
  intros Hmem Hdv. unfold lambda_handler. rewrite Hmem.
  rewrite bind_run.
  match goal with |- context [result (?m boto h)] =>
    assert (Hm : result (m boto h) = Raise /\ Forall not_callback (made (m boto h)))
  end.
  { rewrite bind_run.
    pose proof (create_service_link_role_no_callback boto h) as Hrole.
    destruct (result (create_service_link_role boto h)); cbn [result made fst snd];
      [|now split].
    rewrite bind_run, get_vpc_metadata_fails by apply Hdv.
    cbn [result made fst snd].
    unfold create_transit_gateways at 1 2. cbn [iterable].
    unfold bind at 1 3, raise. cbn.
    split; [reflexivity|]. apply Forall_app. split; [exact Hrole|].
    now repeat constructor. }
  destruct Hm as [-> Hno]. cbn. split; [reflexivity|].
  now apply callback_statuses_none.
Qed.

(* ------------------------------------------------------------------ *)
(** ** The route-deletion test *)

(** C4.  With a list for the CIDR parameter the test
    [route['DestinationCidrBlock'] == cidr] is false for every route, and
    neither [create_vpc_route_to_tgw] nor [get_default_route_table] ever
    calls delete_route, whatever the provider answers. *)
Theorem delete_route_is_dead_code (blocks : list string) :
  (forall dest, Py.eqb (Py.Str dest) (Py.List blocks) = false) /\
  (forall vpc_metadata tgw_id,
      emits not_delete_route
        (create_vpc_route_to_tgw vpc_metadata tgw_id (Py.List blocks))) /\
  (forall returned_vpc vpc_tag,
      emits not_delete_route
        (get_default_route_table returned_vpc (Py.List blocks) vpc_tag)).
Proof.
  split; [reflexivity|]. split.
  - intros md tgw. unfold create_vpc_route_to_tgw.
    repeat (cbn [Py.eqb]; emits_step); reflexivity.
  - intros v t. unfold get_default_route_table.
    repeat (cbn [Py.eqb]; emits_step); reflexivity.
Qed.

(* ------------------------------------------------------------------ *)
(** ** A raising call ends the step *)

Lemma answered_then_last (l1 l2 : log) :
  Forall answered l1 -> raising_call_is_last l2 -> raising_call_is_last (l1 ++ l2).
Proof.
  intros H1 H2. induction H1 as [|e l1 He _ IH]; [exact H2|].
  intros before c after Heq. destruct before as [|b before]; cbn in Heq.
  - injection Heq as -> _. now contradiction He.
  - injection Heq as _ Heq. now apply (IH before c after).
Qed.

Lemma answered_is_last (l : log) : Forall answered l -> raising_call_is_last l.
Proof.
  intros H. rewrite <- (app_nil_r l). apply answered_then_last; [exact H|].
  intros [|? ?] ? ? Heq; discriminate Heq.
Qed.

Lemma single_is_last (e : logged) : raising_call_is_last [e].
Proof.
  intros [|b [|? ?]] c after Heq; try discriminate Heq.
  now injection Heq as _ <-.
Qed.

Lemma strict_ret {A : Type} (a : A) : strict (ret a).
Proof. intros boto h. split; [now apply answered_is_last | now constructor]. Qed.

Lemma strict_raise {A : Type} : strict (@raise A).
Proof. intros boto h. split; [now apply answered_is_last | now constructor]. Qed.

Lemma strict_request (c : call) : strict (request c).
Proof.
  intros boto h. rewrite request_made, request_result. split; [apply single_is_last|].
  intros a Ha. destruct (boto h c); [|discriminate Ha]. now repeat constructor.
Qed.

Lemma strict_bind {A B : Type} (m : M A) (k : A -> M B) :
  strict m -> (forall a, strict (k a)) -> strict (bind m k).
Proof.
  intros Hm Hk boto h. rewrite bind_run. destruct (Hm boto h) as [Hl Ha].
  destruct (result (m boto h)) as [a|]; cbn [made result fst snd].
  - destruct (Hk a boto (h ++ made (m boto h))) as [Hl' Ha']. split.
    + apply answered_then_last; [now apply (Ha a) | exact Hl'].
    + intros b Hb. apply Forall_app. split; [now apply (Ha a) | now apply (Ha' b)].
  - split; [exact Hl | discriminate].
Qed.

Lemma strict_for_each {A : Type} (xs : list A) (body : A -> M unit) :
  (forall x, strict (body x)) -> strict (for_each xs body).
Proof.
  intros Hb. induction xs as [|x xs IH]; cbn.
  - apply strict_ret.
  - apply strict_bind; [apply Hb | intros _; exact IH].
Qed.

Lemma strict_get_RouteTables r : strict (get_RouteTables r).
Proof. destruct r; first [apply strict_ret | apply strict_raise]. Qed.

Lemma stops_try_return {S R : Type} (m : M (ctl S R)) (r : R) :
  strict m -> stops_at_failure (try_except m (ret (Return r))).
Proof.
  intros Hm boto h. rewrite try_except_run. destruct (Hm boto h) as [Hl Ha].
  destruct (result (m boto h)) as [a|]; cbn [made result fst snd].
  - split; [exact Hl|]. intros s _. now apply (Ha a).
  - rewrite app_nil_r. split; [exact Hl | discriminate].
Qed.

Lemma stops_next {S R : Type} (s : S) : stops_at_failure (ret (@Next S R s)).
Proof. intros boto h. split; [now apply answered_is_last | now constructor]. Qed.

Lemma stops_for_in {A S R : Type} (xs : list A) (s : S)
    (body : A -> S -> M (ctl S R)) :
  (forall x s', stops_at_failure (body x s')) -> stops_at_failure (for_in xs s body).
Proof.
  intros Hb. revert s. induction xs as [|x xs IH]; intros s; cbn [for_in].
  - apply stops_next.
  - intros boto h. rewrite bind_run. destruct (Hb x s boto h) as [Hl Ha].
    destruct (result (body x s boto h)) as [[s'|r]|]; cbn [made result fst snd].
    + destruct (IH s' boto (h ++ made (body x s boto h))) as [Hl' Ha']. split.
      * apply answered_then_last; [now apply (Ha s') | exact Hl'].
      * intros s2 Hs2. apply Forall_app. split; [now apply (Ha s') | now apply (Ha' s2)].
    + rewrite app_nil_r. split; [exact Hl | discriminate].
    + split; [exact Hl | discriminate].
Qed.

Lemma create_transit_gateways_stops entries tgw_id :
  stops_at_failure
    (for_in entries tt
       (fun entry (_ : unit) =>
          if Py.truthy (Subnet entry) then
            try_except
              (request (create_transit_gateway_vpc_attachment
                          tgw_id (Vpc entry) (Subnet entry)) ;;
               ret (Next tt))
              (ret (@Return unit unit tt))
          else ret (Next tt))).
Proof.
  apply stops_for_in. intros e _. destruct (Py.truthy (Subnet e)); [|apply stops_next].
  apply stops_try_return, strict_bind; [apply strict_request | intros _; apply strict_ret].
Qed.

Lemma create_transit_gateways_last vpc_metadata tgw_id boto h :
  raising_call_is_last (made (create_transit_gateways vpc_metadata tgw_id boto h)).
Proof.
  unfold create_transit_gateways. destruct vpc_metadata as [entries|]; cbn [iterable].
  2: { unfold bind, raise. cbn. now apply answered_is_last. }
  rewrite bind_ret_l, bind_run.
  destruct (create_transit_gateways_stops entries tgw_id boto h) as [Hl Ha].
  match type of Hl with raising_call_is_last (made ?x) => destruct (result x) as [[s|r]|] end;
    cbn [made result fst snd ret time_sleep].
  - apply answered_is_last, Forall_app. split; [now apply (Ha s)|].
    repeat constructor. discriminate.
  - now rewrite app_nil_r.
  - exact Hl.
Qed.

Lemma create_vpc_route_to_tgw_last vpc_metadata tgw_id cidr boto h :
  raising_call_is_last (made (create_vpc_route_to_tgw vpc_metadata tgw_id cidr boto h)).
Proof.
  unfold create_vpc_route_to_tgw. destruct vpc_metadata as [entries|]; cbn [iterable].
  2: { unfold bind, raise. cbn. now apply answered_is_last. }
  rewrite bind_ret_l, bind_run.
  match goal with |- context [result (for_in ?xs ?s ?b boto h)] =>
    assert (Hs : stops_at_failure (for_in xs s b)) end.
  { apply stops_for_in. intros e _. destruct (Py.truthy (Subnet e)); [|apply stops_next].
    apply stops_try_return.
    apply strict_bind; [apply strict_request | intros r].
    apply strict_bind; [apply strict_get_RouteTables | intros rts].
    apply strict_bind; [|intros _; apply strict_ret].
    apply strict_for_each. intros rt.
    apply strict_bind; [|intros _].
    - apply strict_for_each. intros ro. destruct (DestinationCidrBlock ro); [|apply strict_ret].
      destruct (Py.eqb _ _); [|apply strict_ret].
      apply strict_bind; [apply strict_request | intros _; apply strict_ret].
    - apply strict_for_each. intros b.
      apply strict_bind; [apply strict_request | intros _; apply strict_ret]. }
  destruct (Hs boto h) as [Hl Ha].
  match type of Hl with raising_call_is_last (made ?x) => destruct (result x) as [[s|r]|] end;
    cbn [made result fst snd ret]; [now rewrite app_nil_r .. | exact Hl].
Qed.

(** C3, as amended.  In the attachment step and in the route step a call
    that raises is the last call of the step: the function returns at once
    and nothing is done for the entries after the failing one. *)
Theorem failure_ends_the_step vpc_metadata tgw_id cidr boto h before c after :
  made (create_transit_gateways vpc_metadata tgw_id boto h)
    = before ++ (c, None) :: after \/
  made (create_vpc_route_to_tgw vpc_metadata tgw_id cidr boto h)
    = before ++ (c, None) :: after ->
  after = [].
Proof.
  intros [Heq|Heq].
  - exact (create_transit_gateways_last _ _ _ _ _ _ _ Heq).
  - exact (create_vpc_route_to_tgw_last _ _ _ _ _ _ _ _ Heq).
Qed.

(* ------------------------------------------------------------------ *)
(** ** Route reconciliation: the create-route calls *)

Lemma create_route_calls_app (l1 l2 : log) :
  create_route_calls (l1 ++ l2) = create_route_calls l1 ++ create_route_calls l2.
Proof. unfold create_route_calls. now rewrite map_app, filter_app. Qed.

(** With a list for the CIDR parameter the loop over a table's routes makes
    no call at all. *)
Lemma route_loop_silent (routes : list route) (blocks : list string) rtid boto h :
  for_each routes
    (fun route =>
       match DestinationCidrBlock route with
       | Some dest =>
           if Py.eqb (Py.Str dest) (Py.List blocks) then
             request (delete_route (Py.List blocks) rtid) ;; ret tt
           else ret tt
       | None => ret tt
       end) boto h = (Ret tt, []).
Proof.
  revert h. induction routes as [|ro routes IH]; intros h; cbn [for_each]; [reflexivity|].
  destruct (DestinationCidrBlock ro); cbn [Py.eqb]; now rewrite bind_ret_l.
Qed.

(** The loop over the CIDR blocks: when every call is answered, it makes
    one create-route call per block, in order. *)
Lemma block_loop_run (blocks : list string) rtid tgw_id boto h :
  let run := for_each blocks
               (fun block => request (create_route rtid block tgw_id) ;; ret tt)
               boto h in
  Forall answered (made run) ->
  result run = Ret tt /\
  create_route_calls (made run) = map (fun block => create_route rtid block tgw_id) blocks.
Proof.
  cbv zeta. revert h. induction blocks as [|b blocks IH]; intros h; cbn [for_each].
  - now split.
  - rewrite !bind_run, request_result, request_made.
    destruct (boto h (create_route rtid b tgw_id)) as [r|] eqn:Hb;
      cbn [made result fst snd ret app].
    + intros Hall. apply Forall_inv_tail in Hall.
      destruct (IH _ Hall) as [Hr Hc]. rewrite Hr. split; [reflexivity|].
      unfold create_route_calls in *. cbn [map List.filter fst is_create_route].
      now rewrite Hc.
    + intros Hall. apply Forall_inv in Hall. now contradiction Hall.
Qed.

(** The loop over the described tables. *)
Lemma table_loop_run (rts : list route_table) (blocks : list string) tgw_id boto h :
  let run :=
    for_each rts
      (fun rt =>
         for_each (Routes rt)
           (fun route =>
              match DestinationCidrBlock route with
              | Some dest =>
                  if Py.eqb (Py.Str dest) (Py.List blocks) then
                    request (delete_route (Py.List blocks) (RouteTableId rt)) ;;
                    ret tt
                  else ret tt
              | None => ret tt
              end) ;;
         for_each (Py.iter (Py.List blocks))
           (fun block =>
              request (create_route (RouteTableId rt) block tgw_id) ;;
              ret tt)) boto h in
  Forall answered (made run) ->
  result run = Ret tt /\
  create_route_calls (made run) =
    flat_map (fun rtid => map (fun block => create_route rtid block tgw_id) blocks)
      (map RouteTableId rts).
Proof.
  cbv zeta. revert h. induction rts as [|rt rts IH]; intros h; cbn [for_each].
  - now split.
  - rewrite bind_run.
    rewrite (bind_run (for_each (Routes rt) _)), route_loop_silent.
    cbn [made result fst snd app Py.iter] in *. rewrite app_nil_r.
    pose proof (block_loop_run blocks (RouteTableId rt) tgw_id boto h) as Hb.
    cbv zeta in Hb.
    destruct (result (for_each blocks _ boto h)) as [[]|] eqn:Hres;
      cbn [made result fst snd].
    + intros Hall. apply Forall_app in Hall as [H1 H2].
      destruct (Hb H1) as [_ Hc1]. destruct (IH _ H2) as [Hr Hc2].
      split; [exact Hr|]. rewrite create_route_calls_app, Hc1, Hc2. reflexivity.
    + intros Hall. now destruct (Hb Hall).
Qed.

(** Route reconciliation for any CIDR list: when every call is answered and
    the provider describes the tables it is asked for, the create-route
    calls are, table by table in the order the entries list them, one per
    CIDR block in list order, each aimed at the transit gateway. *)
Lemma create_vpc_route_to_tgw_create_calls entries tgw_id blocks boto h :
  returns_requested_tables boto ->
  Forall answered
    (made (create_vpc_route_to_tgw (Some entries) tgw_id (Py.List blocks) boto h)) ->
  create_route_calls
    (made (create_vpc_route_to_tgw (Some entries) tgw_id (Py.List blocks) boto h))
  = flat_map (fun rtid => map (fun block => create_route rtid block tgw_id) blocks)
      (eligible_route_tables entries).
Proof.
  intros Hboto. unfold create_vpc_route_to_tgw. cbn [iterable].
  rewrite bind_ret_l, bind_run.
  match goal with |- context [for_in entries tt ?b] => set (body := b) end.
  assert (Hloop : forall h,
             Forall answered (made (for_in entries tt body boto h)) ->
             create_route_calls (made (for_in entries tt body boto h))
             = flat_map (fun rtid => map (fun block => create_route rtid block tgw_id) blocks)
                 (eligible_route_tables entries)).
  { clear h. induction entries as [|e entries IH]; intros h; cbn [for_in]; [reflexivity|].
    unfold eligible_route_tables. cbn [flat_map]. fold (eligible_route_tables entries).
    rewrite flat_map_app, bind_run.
    destruct (Py.truthy (Subnet e)) eqn:Htruthy.
    2: { assert (Hb : body e tt = ret (Next tt)) by (unfold body; now rewrite Htruthy).
         rewrite Hb. cbn [ret made result fst snd app flat_map]. apply IH. }
    eassert (Hb : body e tt = _) by (unfold body; rewrite Htruthy; reflexivity).
    rewrite Hb. clear Hb.
    rewrite try_except_run, bind_run, request_result, request_made.
    destruct (boto h (describe_route_tables_ids (Route_Tables e))) as [r|] eqn:Hd.
    2: { cbn [ret made result fst snd app]. intros Hall. apply Forall_inv in Hall.
         now contradiction Hall. }
    destruct (Hboto _ _ _ Hd) as (rts & -> & <-).
    cbn [made result fst snd get_RouteTables]. rewrite bind_ret_l, bind_run.
    pose proof (table_loop_run rts blocks tgw_id boto
                  (h ++ [(describe_route_tables_ids (Some (map RouteTableId rts)),
                          Some (RouteTablesResponse rts))])) as Ht.
    cbv zeta in Ht.
    match type of Ht with Forall answered (made ?x) -> _ => set (run := x) in * end.
    destruct (result run) as [[]|] eqn:Hres; cbn [ret made result fst snd app].
    - rewrite !app_nil_r. intros Hall. inversion Hall as [|? ? _ Hall']; subst.
      apply Forall_app in Hall' as [H1 H2]. destruct (Ht H1) as [_ Hc].
      change (?x :: ?l ++ ?l') with (([x] ++ l) ++ l').
      rewrite !create_route_calls_app, Hc. cbn [create_route_calls map List.filter fst
        is_create_route app]. f_equal. apply IH.
      exact H2.
    - rewrite !app_nil_r. intros Hall. inversion Hall as [|? ? _ Hall']; subst.
      now destruct (Ht Hall'). }
  specialize (Hloop h).
  destruct (result (for_in entries tt body boto h)); cbn [ret made result fst snd];
    rewrite ?app_nil_r; exact Hloop.
Qed.



(* ------------------------------------------------------------------ *)
(** ** Subnet selection *)

Lemma zone_known_iff (m : list (string * string)) (az : string) :
  existsb (fun p => String.eqb az (fst p)) m = true <-> In az (map fst m).
Proof.
  rewrite existsb_exists, in_map_iff. split.
  - intros (p & Hin & Heq). apply String.eqb_eq in Heq. now exists p.
  - intros (p & Heq & Hin). exists p. split; [exact Hin|]. now apply String.eqb_eq.
Qed.

Lemma first_in_zone_cons (az : string) (sub : subnet) (subs : list subnet) :
  first_in_zone az (sub :: subs)
  = if String.eqb (AvailabilityZone sub) az then Some (SubnetId sub)
    else first_in_zone az subs.
Proof.
  unfold first_in_zone. cbn. now destruct (String.eqb (AvailabilityZone sub) az).
Qed.

(** The selection loop keeps the zones distinct, never changes the subnet
    of a zone it has, and gives a new zone the first subnet seen in it. *)
Lemma az_insert_fold (subs : list subnet) :
  forall m : list (string * string),
    NoDup (map fst m) ->
    NoDup (map fst (fold_left az_insert subs m)) /\
    forall az id,
      In (az, id) (fold_left az_insert subs m) <->
      In (az, id) m \/ (~ In az (map fst m) /\ first_in_zone az subs = Some id).
Proof.
  induction subs as [|sub subs IH]; intros m Hm; cbn [fold_left].
  - split; [exact Hm|]. intros az id. unfold first_in_zone. cbn. intuition discriminate.
  - unfold az_insert at 2 4.
    destruct (existsb _ m) eqn:Hknown; cbn [negb].
    + apply zone_known_iff in Hknown. destruct (IH m Hm) as [Hnd Hin]. split; [exact Hnd|].
      intros az id. rewrite Hin, first_in_zone_cons.
      destruct (String.eqb_spec (AvailabilityZone sub) az) as [<-|Hne]; [|reflexivity].
      intuition.
    + assert (Hnew : ~ In (AvailabilityZone sub) (map fst m)).
      { intros Hin. apply zone_known_iff in Hin. congruence. }
      assert (Hm' : NoDup (map fst (m ++ [(AvailabilityZone sub, SubnetId sub)]))).
      { rewrite map_app. cbn. apply NoDup_app; [exact Hm | repeat constructor; intros [] |].
        intros az Haz [<-|[]]. now apply Hnew. }
      destruct (IH _ Hm') as [Hnd Hin]. split; [exact Hnd|].
      intros az id. rewrite Hin, first_in_zone_cons, map_app, !in_app_iff. cbn.
      destruct (String.eqb_spec (AvailabilityZone sub) az) as [<-|Hne].
      * split.
        -- intros [[H|[H|[]]]|[H _]]; [now left | | now contradiction H; right; left].
           injection H as <-. now right.
        -- intros [H|[_ H]]; [now left; left|]. injection H as <-. left. right. now left.
      * split.
        -- intros [[H|[H|[]]]|[H H']];
             [now left | injection H as H1 _; now contradiction Hne | right].
           split; [|exact H']. intros Hk. apply H. now left.
        -- intros [H|[H H']]; [now left; left|]. right. split; [|exact H'].
           intros [Hk|[Hk|[]]]; [now apply H | now apply Hne].
Qed.

Lemma seen_subnets_app (l1 l2 : log) :
  seen_subnets (l1 ++ l2) = seen_subnets l1 ++ seen_subnets l2.
Proof. unfold seen_subnets. apply flat_map_app. Qed.

(** The loop over the listed subnet ids folds [az_insert] over the subnets
    the per-subnet describes return. *)
Lemma subnet_loop_run (subnet_list : list string) :
  forall (m : list (string * string)) boto h m',
    let run :=
      for_fold subnet_list m
        (fun subnet az_subnet_mapping =>
           response <- request (describe_subnets [("subnet-id", [subnet])]) ;;
           subs <- get_Subnets response ;;
           ret (fold_left az_insert subs az_subnet_mapping)) boto h in
    result run = Ret m' ->
    m' = fold_left az_insert (seen_subnets (made run)) m.
Proof.
  induction subnet_list as [|sn sns IH]; intros m boto h m'; cbv zeta; cbn [for_fold].
  - cbn. now intros [= <-].
  - rewrite bind_run, bind_run, request_result, request_made.
    destruct (boto h (describe_subnets [("subnet-id", [sn])])) as [r|];
      cbn [made result fst snd]; [|discriminate].
    destruct r as [| |subs| |]; cbn [get_Subnets]; try (unfold bind, raise; cbn; discriminate).
    rewrite bind_ret_l. cbn [ret made result fst snd].
    match goal with |- context [result (for_fold sns ?m0 ?b boto ?h0)] =>
      specialize (IH m0 boto h0); cbv zeta in IH;
      destruct (result (for_fold sns m0 b boto h0)) as [m2|] eqn:Hres
    end; cbn [made result fst snd]; [|discriminate].
    intros [= <-]. rewrite app_nil_r. cbn [app].
    change (?x :: ?l) with ([x] ++ l). rewrite seen_subnets_app, fold_left_app.
    cbn [seen_subnets flat_map app]. change ("subnet-id" =? "subnet-id") with true.
    cbv iota. rewrite app_nil_r. now apply IH.
Qed.

(** When the loop returns, it has asked about the listed subnets one by
    one, in listing order. *)
Lemma subnet_loop_calls (subnet_list : list string) :
  forall (m : list (string * string)) boto h m',
    let run :=
      for_fold subnet_list m
        (fun subnet az_subnet_mapping =>
           response <- request (describe_subnets [("subnet-id", [subnet])]) ;;
           subs <- get_Subnets response ;;
           ret (fold_left az_insert subs az_subnet_mapping)) boto h in
    result run = Ret m' ->
    map fst (made run)
    = map (fun subnet => describe_subnets [("subnet-id", [subnet])]) subnet_list.
Proof.
  induction subnet_list as [|sn sns IH]; intros m boto h m'; cbv zeta; cbn [for_fold].
  - reflexivity.
  - rewrite bind_run, bind_run, request_result, request_made.
    destruct (boto h (describe_subnets [("subnet-id", [sn])])) as [r|];
      cbn [made result fst snd]; [|discriminate].
    destruct r as [| |subs| |]; cbn [get_Subnets]; try (unfold bind, raise; cbn; discriminate).
    rewrite bind_ret_l. cbn [ret made result fst snd].
    match goal with |- context [result (for_fold sns ?m0 ?b boto ?h0)] =>
      specialize (IH m0 boto h0); cbv zeta in IH;
      destruct (result (for_fold sns m0 b boto h0)) as [m2|] eqn:Hres
    end; cbn [made result fst snd]; [|discriminate].
    intros _. rewrite app_nil_r. cbn [app map fst]. f_equal. now apply (IH m2).
Qed.

(** C6.  When [get_subnets] returns a list, it has asked about the subnets
    of the listing one by one in listing order, and the list is that of the
    subnet ids of a zone-to-subnet mapping in which no zone occurs twice and
    the subnet of a zone is the first one seen in that zone. *)
Theorem get_subnets_one_per_zone returned_vpc vpc_tag boto h subnets :
  result (get_subnets returned_vpc vpc_tag boto h) = Ret (Some subnets) ->
  let listing_call :=
    describe_subnets [("vpc-id", [returned_vpc]); ("tag:tgw-attach", [vpc_tag])] in
  let calls := map fst (made (get_subnets returned_vpc vpc_tag boto h)) in
  let seen := seen_subnets (made (get_subnets returned_vpc vpc_tag boto h)) in
  (exists listing,
      boto h listing_call = Some (SubnetsResponse listing) /\
      calls = listing_call ::
              map (fun sub => describe_subnets [("subnet-id", [SubnetId sub])]) listing) /\
  exists az_subnet_mapping : list (string * string),
    subnets = map snd az_subnet_mapping /\
    NoDup (map fst az_subnet_mapping) /\
    forall az id,
      In (az, id) az_subnet_mapping <-> first_in_zone az seen = Some id.
Proof.
  cbv zeta. unfold get_subnets. rewrite bind_run, try_except_run, bind_run.
  rewrite request_result, request_made.
  destruct (boto h (describe_subnets _)) as [r|];
    cbn [made result fst snd ret]; [|discriminate].
  destruct r as [| |entries| |]; cbn [get_Subnets];
    try (unfold bind at 1 2 3, raise; cbn; discriminate).
  rewrite bind_ret_l, bind_run.
  match goal with |- context [result (for_fold ?xs ?m0 ?b boto ?h0)] =>
    pose proof (subnet_loop_run xs m0 boto h0) as Hloop; cbv zeta in Hloop;
    pose proof (subnet_loop_calls xs m0 boto h0) as Hcalls; cbv zeta in Hcalls;
    destruct (result (for_fold xs m0 b boto h0)) as [m|] eqn:Hres
  end; cbn [made result fst snd ret]; [|discriminate].
  intros [= <-]. specialize (Hloop m eq_refl). specialize (Hcalls m eq_refl).
  rewrite !app_nil_r. cbn [app]. split.
  { exists entries. split; [reflexivity|]. cbn [map fst]. rewrite Hcalls, map_map.
    reflexivity. }
  exists m.
  change (?x :: ?l) with ([x] ++ l). rewrite seen_subnets_app.
  change (seen_subnets [(describe_subnets [_; _], _)]) with (@nil subnet).
  cbn [app].
  match type of Hloop with m = fold_left az_insert ?s [] =>
    destruct (az_insert_fold s [] (NoDup_nil _)) as [Hnd Hin];
    rewrite <- Hloop in Hnd, Hin
  end.
  split; [reflexivity|]. split; [exact Hnd|].
  intros az id. rewrite Hin. cbn. intuition.
Qed.

(* ------------------------------------------------------------------ *)
(** ** Discovery *)

Lemma no_describe_vpcs (l : log) :
  Forall not_describe_vpcs l -> describe_vpcs_count l = 0 /\ described_vpcs l = [].
Proof.
  induction 1 as [|[c r] l Hc _ [IH1 IH2]]; [now split|].
  unfold describe_vpcs_count, described_vpcs, not_describe_vpcs in *. cbn in *.
  destruct c; try discriminate Hc; now split.
Qed.

Lemma describe_vpcs_count_app (l1 l2 : log) :
  describe_vpcs_count (l1 ++ l2) = describe_vpcs_count l1 + describe_vpcs_count l2.
Proof. unfold describe_vpcs_count. now rewrite map_app, filter_app, length_app. Qed.

Lemma described_vpcs_app (l1 l2 : log) :
  described_vpcs (l1 ++ l2) = described_vpcs l1 ++ described_vpcs l2.
Proof. unfold described_vpcs. apply flat_map_app. Qed.

Lemma get_subnets_returns returned_vpc vpc_tag boto h :
  exists v, result (get_subnets returned_vpc vpc_tag boto h) = Ret v.
Proof.
  unfold get_subnets. rewrite bind_run, try_except_run.
  match goal with |- context [result (?m boto h)] => destruct (result (m boto h)) as [[m'|v]|] end;
    cbn; eauto.
Qed.

Lemma get_default_route_table_returns returned_vpc cidr vpc_tag boto h :
  exists v, result (get_default_route_table returned_vpc cidr vpc_tag boto h) = Ret v.
Proof.
  unfold get_default_route_table. rewrite try_except_run.
  match goal with |- context [result (?m boto h)] => destruct (result (m boto h)) end;
    cbn; eauto.
Qed.

Lemma get_subnets_no_describe_vpcs returned_vpc vpc_tag :
  emits not_describe_vpcs (get_subnets returned_vpc vpc_tag).
Proof. unfold get_subnets. repeat emits_step; reflexivity. Qed.

Lemma get_default_route_table_no_describe_vpcs returned_vpc cidr vpc_tag :
  emits not_describe_vpcs (get_default_route_table returned_vpc cidr vpc_tag).
Proof. unfold get_default_route_table. repeat emits_step; reflexivity. Qed.

(** The loop over the tags of one VPC: it returns, with one more record
    for each tag whose value is the tag looked for. *)
Lemma tag_value_loop_run (v : vpc) (tag_ : string) (cidr : Py.value) (tags : list tag) :
  forall acc boto h,
    let run :=
      for_fold tags acc
        (fun tag_value returned_metadata =>
           if String.eqb (Value tag_value) tag_ then
             subnets <- get_subnets (VpcId v) "True" ;;
             route_tables <- get_default_route_table (VpcId v) cidr "True" ;;
             ret (returned_metadata ++
                    [{| Vpc := VpcId v;
                        Subnet := subnets;
                        Route_Tables := route_tables |}])
           else ret returned_metadata) boto h in
    exists acc',
      result run = Ret acc' /\
      map Vpc acc' =
        map Vpc acc ++
        flat_map (fun tag_value =>
                    if String.eqb (Value tag_value) tag_ then [VpcId v] else []) tags /\
      Forall not_describe_vpcs (made run).
Proof.
  induction tags as [|tv tags IH]; intros acc boto h; cbv zeta; cbn [for_fold flat_map].
  - exists acc. rewrite app_nil_r. repeat split. constructor.
  - rewrite bind_run. destruct (String.eqb (Value tv) tag_).
    + rewrite bind_run.
      destruct (get_subnets_returns (VpcId v) "True" boto h) as [sn Hsn].
      pose proof (get_subnets_no_describe_vpcs (VpcId v) "True" boto h) as Hsn'.
      rewrite Hsn. cbn [made result fst snd]. rewrite bind_run.
      set (h1 := h ++ made (get_subnets (VpcId v) "True" boto h)).
      destruct (get_default_route_table_returns (VpcId v) cidr "True" boto h1) as [rt Hrt].
      pose proof (get_default_route_table_no_describe_vpcs (VpcId v) cidr "True" boto h1)
        as Hrt'.
      rewrite Hrt. cbn [made result fst snd ret]. rewrite !app_nil_r.
      match goal with |- context [for_fold tags ?a ?b boto ?h0] =>
        destruct (IH a boto h0) as (acc' & Hr & Hm & Hn) end.
      exists acc'. rewrite Hr. cbn [made result fst snd]. split; [reflexivity|]. split.
      * rewrite Hm, map_app, <- app_assoc. reflexivity.
      * repeat (apply Forall_app; split); assumption.
    + cbn [ret made result fst snd app].
      destruct (IH acc boto (h ++ [])) as (acc' & Hr & Hm & Hn).
      exists acc'. rewrite Hr. cbn [made result fst snd]. now repeat split.
Qed.

(** The loop over the VPCs of a listing. *)
Lemma vpc_loop_run (tag_ : string) (cidr : Py.value) (vpcs : list vpc) :
  forall acc boto h,
    let run :=
      for_fold vpcs acc
        (fun vpc returned_metadata =>
           match Tags vpc with
           | Some tags =>
               for_fold tags returned_metadata
                 (fun tag_value returned_metadata =>
                    if String.eqb (Value tag_value) tag_ then
                      subnets <- get_subnets (VpcId vpc) "True" ;;
                      route_tables <-
                        get_default_route_table (VpcId vpc) cidr "True" ;;
                      ret (returned_metadata ++
                             [{| Vpc := VpcId vpc;
                                 Subnet := subnets;
                                 Route_Tables := route_tables |}])
                    else ret returned_metadata)
           | None => ret returned_metadata
           end) boto h in
    exists acc',
      result run = Ret acc' /\
      map Vpc acc' = map Vpc acc ++ vpc_matches tag_ vpcs /\
      Forall not_describe_vpcs (made run).
Proof.
  induction vpcs as [|v vpcs IH]; intros acc boto h; cbv zeta; cbn [for_fold].
  - exists acc. unfold vpc_matches. cbn. rewrite app_nil_r. repeat split. constructor.
  - rewrite bind_run. unfold vpc_matches. cbn [flat_map]. fold (vpc_matches tag_ vpcs).
    unfold vpc_tags_of. destruct (Tags v) as [tags|].
    + destruct (tag_value_loop_run v tag_ cidr tags acc boto h) as (acc1 & Hr1 & Hm1 & Hn1).
      cbv zeta in Hr1, Hn1. rewrite Hr1. cbn [made result fst snd].
      match goal with |- context [for_fold vpcs acc1 ?b boto ?h0] =>
        destruct (IH acc1 boto h0) as (acc' & Hr & Hm & Hn) end.
      exists acc'. rewrite Hr. cbn [made result fst snd]. split; [reflexivity|]. split.
      * rewrite Hm, Hm1, <- app_assoc. reflexivity.
      * apply Forall_app. now split.
    + cbn [ret made result fst snd app flat_map].
      destruct (IH acc boto (h ++ [])) as (acc' & Hr & Hm & Hn).
      exists acc'. rewrite Hr. cbn [made result fst snd]. now repeat split.
Qed.

(** The loop over the tag list: when it runs to its end, it has made one
    describe-VPCs call per tag, and the records it added are those of the
    matches of each tag in the listing its call returned. *)
Lemma tag_loop_run (cidr : Py.value) (tags : list string) :
  forall acc boto h md,
    let run :=
      for_in tags acc
        (fun tag_ returned_metadata =>
           try_except
             (get_vpc_response <- request describe_vpcs ;;
              vpcs <- get_Vpcs get_vpc_response ;;
              returned_metadata <-
                for_fold vpcs returned_metadata
                  (fun vpc returned_metadata =>
                     match Tags vpc with
                     | Some tags =>
                         for_fold tags returned_metadata
                           (fun tag_value returned_metadata =>
                              if String.eqb (Value tag_value) tag_ then
                                subnets <- get_subnets (VpcId vpc) "True" ;;
                                route_tables <-
                                  get_default_route_table (VpcId vpc) cidr "True" ;;
                                ret (returned_metadata ++
                                       [{| Vpc := VpcId vpc;
                                           Subnet := subnets;
                                           Route_Tables := route_tables |}])
                              else ret returned_metadata)
                     | None => ret returned_metadata
                     end) ;;
              ret (Next returned_metadata))
             (ret (@Return (list metadata) (option (list metadata)) None))) boto h in
    result run = Ret (Next md) ->
    describe_vpcs_count (made run) = length tags /\
    length (described_vpcs (made run)) = length tags /\
    map Vpc md = map Vpc acc ++ matched_vpcs tags (described_vpcs (made run)).
Proof.
  induction tags as [|tag_ tags IH]; intros acc boto h md; cbv zeta; cbn [for_in].
  - cbn. intros [= <-]. unfold matched_vpcs. cbn. now rewrite app_nil_r.
  - rewrite bind_run, try_except_run, bind_run, request_result, request_made.
    destruct (boto h describe_vpcs) as [r|]; cbn [made result fst snd ret];
      [|discriminate].
    destruct r as [|vpcs| | |]; cbn [get_Vpcs];
      try (unfold bind at 2 3 4, raise; cbn; discriminate).
    rewrite bind_ret_l, bind_run.
    match goal with |- context [for_fold vpcs acc ?b boto ?h0] =>
      destruct (vpc_loop_run tag_ cidr vpcs acc boto h0) as (acc1 & Hr1 & Hm1 & Hn1) end.
    cbv zeta in Hr1, Hn1. rewrite Hr1. cbn [made result fst snd ret].
    rewrite !app_nil_r.
    match goal with |- context [for_in tags acc1 ?b boto ?h0] =>
      specialize (IH acc1 boto h0 md); cbv zeta in IH;
      set (rest := for_in tags acc1 b boto h0) in *;
      destruct (result rest) as [[md'|]|] eqn:Hres
    end; cbn [made result fst snd ret]; try discriminate.
    intros [= <-]. destruct (IH eq_refl) as (Hc & Hl & Hm).
    destruct (no_describe_vpcs _ Hn1) as [Hc1 Hd1].
    change (?x :: ?l ++ ?l') with ([x] ++ l ++ l').
    rewrite !describe_vpcs_count_app, !described_vpcs_app, Hc, Hc1, Hd1.
    change (described_vpcs [(describe_vpcs, Some (VpcsResponse vpcs))]) with [vpcs].
    change (describe_vpcs_count [(describe_vpcs, Some (VpcsResponse vpcs))]) with 1.
    cbn [app length]. rewrite Hl. split; [reflexivity|]. split; [reflexivity|].
    rewrite Hm, Hm1. unfold matched_vpcs. cbn [combine flat_map fst snd].
    now rewrite <- app_assoc.
Qed.

(** What a loop returns early with, some body returned early with. *)
Lemma for_in_return {A S R : Type} (P : R -> Prop) (xs : list A)
    (body : A -> S -> M (ctl S R)) :
  (forall x s boto h r, result (body x s boto h) = Ret (Return r) -> P r) ->
  forall s boto h r, result (for_in xs s body boto h) = Ret (Return r) -> P r.
Proof.
  intros Hb. induction xs as [|x xs IH]; intros s boto h r; cbn [for_in].
  - discriminate.
  - rewrite bind_run. specialize (Hb x s boto h).
    destruct (result (body x s boto h)) as [[s'|r']|]; cbn [made result fst snd ret].
    + apply IH.
    + intros [= <-]. now apply Hb.
    + discriminate.
Qed.

(** Discovery, when it returns a list. *)
Lemma get_vpc_metadata_run account region vpc_tags cidr boto h md :
  let run := get_vpc_metadata account region vpc_tags cidr boto h in
  result run = Ret (Some md) ->
  describe_vpcs_count (made run) = length (tag_list vpc_tags) /\
  length (described_vpcs (made run)) = length (tag_list vpc_tags) /\
  map Vpc md = matched_vpcs (tag_list vpc_tags) (described_vpcs (made run)).
Proof.
  cbv zeta. unfold get_vpc_metadata. cbv zeta. fold (tag_list vpc_tags).
  rewrite bind_run.
  match goal with |- context [for_in ?ts ?acc ?b boto h] =>
    pose proof (tag_loop_run cidr ts acc boto h) as Hloop; cbv zeta in Hloop;
    pose proof (for_in_return (fun r => r = None) ts b) as Hret;
    specialize (fun H => Hret H acc boto h);
    destruct (result (for_in ts acc b boto h)) as [[md'|v]|] eqn:Hres
  end; cbn [made result fst snd ret]; try discriminate.
  - intros [= <-]. rewrite app_nil_r. exact (Hloop md' eq_refl).
  - assert (Hv : v = None); [|now rewrite Hv].
    apply Hret; [|reflexivity]. clear. intros x s boto h r.
    rewrite try_except_run, bind_run, request_result, request_made.
    destruct (boto h describe_vpcs) as [[|vpcs| | |]|];
      cbn [made result fst snd ret get_Vpcs];
      try (unfold bind, raise; cbn; congruence).
    rewrite bind_ret_l, bind_run.
    match goal with |- context [result (for_fold ?a ?b ?c boto ?h0)] =>
      destruct (result (for_fold a b c boto h0)) end; cbn; congruence.
Qed.

(** C5, as amended.  When discovery returns a list, it has made exactly
    one describe-VPCs call per tag of the list, each answered, and it has
    built one record per match of a listed tag with a tag of a VPC in the
    listing that tag's call returned: a VPC has as many records as it has
    such matches. *)
Theorem get_vpc_metadata_one_call_per_tag_one_record_per_match
    account region vpc_tags cidr boto h md :
  result (get_vpc_metadata account region vpc_tags cidr boto h) = Ret (Some md) ->
  let l := made (get_vpc_metadata account region vpc_tags cidr boto h) in
  describe_vpcs_count l = length (tag_list vpc_tags) /\
  length (described_vpcs l) = length (tag_list vpc_tags) /\
  map Vpc md = matched_vpcs (tag_list vpc_tags) (described_vpcs l).
Proof. intros Hr. exact (get_vpc_metadata_run _ _ _ _ _ _ _ Hr). Qed.

(* ------------------------------------------------------------------ *)
(** ** Spaces in the tag parameter *)

Lemma replace_removes (c : ascii) (s : string) :
  Py.contains c (Py.replace c "" s) = false.
Proof.
  induction s as [|a s IH]; cbn; [reflexivity|].
  destruct (Ascii.eqb a c) eqn:Hac; cbn; [exact IH|]. now rewrite Hac.
Qed.

Lemma split_contains (sep c : ascii) (s w : string) :
  In w (Py.split sep s) -> Py.contains c w = true -> Py.contains c s = true.
Proof.
  revert w. induction s as [|a s IH]; intros w; cbn.
  - intros [<-|[]]. cbn. discriminate.
  - destruct (Ascii.eqb a sep).
    + intros [<-|Hin] Hw; [discriminate Hw|]. rewrite (IH w Hin Hw). apply orb_true_r.
    + destruct (Py.split sep s) as [|w0 ws].
      * intros [<-|[]] Hw. cbn in Hw. rewrite orb_false_r in Hw. now rewrite Hw.
      * intros [<-|Hin] Hw.
        -- cbn in Hw. apply orb_true_iff in Hw as [Hw|Hw]; [now rewrite Hw|].
           rewrite (IH w0 (or_introl eq_refl) Hw). apply orb_true_r.
        -- rewrite (IH w (or_intror Hin) Hw). apply orb_true_r.
Qed.

Lemma tag_list_no_space (vpc_tags tag_ : string) :
  In tag_ (tag_list vpc_tags) -> Py.contains " " tag_ = false.
Proof.
  intros Hin. destruct (Py.contains " " tag_) eqn:Hc; [|reflexivity].
  pose proof (split_contains _ _ _ _ Hin Hc) as Hs. now rewrite replace_removes in Hs.
Qed.

Lemma flat_map_nil {A B : Type} (f : A -> list B) (xs : list A) :
  (forall x, In x xs -> f x = []) -> flat_map f xs = [].
Proof.
  induction xs as [|x xs IH]; intros Hf; cbn; [reflexivity|].
  rewrite (Hf x (or_introl eq_refl)). apply IH. intros y Hy. apply Hf. now right.
Qed.

(* ------------------------------------------------------------------ *)
(** ** The handler on the example account *)

Section Runs.

Import Example.


(** A Delete event on the example account. *)
Lemma lambda_handler_delete_run :
  RequestType (lifecycle_event "Delete") = "Delete" /\
  callback_statuses
    (made (lambda_handler (lifecycle_event "Delete") lambda_context aws []))
  = [FAILED; SUCCESS].
Proof.
  split; [reflexivity|].
  apply (lambda_handler_delete_sends_failed_then_success
           (lifecycle_event "Delete") lambda_context aws [] eq_refl).
Defined.

(** A Create event when describe-VPCs is refused. *)
Lemma lambda_handler_create_denied_run :
  result (lambda_handler (lifecycle_event "Create") lambda_context
            aws_describe_vpcs_denied []) = Raise /\
  callback_statuses
    (made (lambda_handler (lifecycle_event "Create") lambda_context
             aws_describe_vpcs_denied [])) = [].
Proof.
  apply (lambda_handler_raises_without_callback
           (lifecycle_event "Create") lambda_context aws_describe_vpcs_denied []);
    [reflexivity | intros h'; reflexivity].
Defined.

(** The same run, call by call. *)
Lemma lambda_handler_create_denied_calls :
  lambda_handler (lifecycle_event "Create") lambda_context aws_describe_vpcs_denied []
  = (Raise,
     [(list_roles, Some (RolesResponse [{| RoleName := "Admin" |}]));
      (create_service_linked_role "transitgateway.amazonaws.com", Some OtherResponse);
      (describe_vpcs, None)]).
Proof. vm_compute. reflexivity. Qed.

(** C3, as stated, fails: the attachment of [vpc-b] raises and [vpc-c],
    after it, is not attached; the description of [rtb-b] raises and the
    tables of [vpc-c] are not even described. *)
Lemma later_entries_are_skipped :
  ~ later_entries_still_attached /\ ~ later_entries_still_routed.
Proof.
  split.
  - intros H.
    specialize (H aws_vpc_b_denied "tgw-1" [] [entry_a] entry_b [entry_c]).
    cbv zeta in H. specialize (H ltac:(vm_compute; auto) entry_c (or_introl eq_refl) eq_refl).
    vm_compute in H. repeat destruct H as [H|H]; try discriminate H. exact H.
  - intros H.
    specialize (H aws_vpc_b_denied "tgw-1" ["10.0.0.0/16"] [] [entry_a] entry_b [entry_c]).
    cbv zeta in H. specialize (H ltac:(vm_compute; auto 10) entry_c (or_introl eq_refl) eq_refl).
    vm_compute in H. repeat destruct H as [H|H]; try discriminate H. exact H.
Qed.

(** The two steps on the example entries, with [vpc-b] refused. *)
Lemma failure_ends_the_step_run :
  made (create_transit_gateways (Some [entry_a; entry_b; entry_c]) "tgw-1"
          aws_vpc_b_denied [])
  = [(create_transit_gateway_vpc_attachment "tgw-1" "vpc-a" (Some ["sn-a"]),
      Some OtherResponse)]
    ++ (create_transit_gateway_vpc_attachment "tgw-1" "vpc-b" (Some ["sn-b"]), None)
    :: [] /\
  @nil logged = [].
Proof.
  split; [vm_compute; reflexivity|].
  apply (failure_ends_the_step (Some [entry_a; entry_b; entry_c]) "tgw-1" (Py.List [])
           aws_vpc_b_denied []
           [(create_transit_gateway_vpc_attachment "tgw-1" "vpc-a" (Some ["sn-a"]),
             Some OtherResponse)]
           (create_transit_gateway_vpc_attachment "tgw-1" "vpc-b" (Some ["sn-b"]))
           []).
  left. vm_compute. reflexivity.
Defined.

(** With a string for the CIDR parameter, as before the change to a
    list, the deletion is reached. *)
Lemma delete_route_reached_with_a_string :
  map fst (made (create_vpc_route_to_tgw (Some [entry_b]) "tgw-1"
                   (Py.Str "10.0.0.0/16") aws []))
  = describe_route_tables_ids (Some ["rtb-b"])
    :: delete_route (Py.Str "10.0.0.0/16") "rtb-b"
    :: map (fun block => create_route "rtb-b" block "tgw-1") (Py.chars "10.0.0.0/16").
Proof. vm_compute. reflexivity. Qed.

(** C5, as stated, fails: [vpc-1] carries two tags of value [prod] and
    gets two records. *)
Lemma two_records_for_one_vpc : ~ one_record_per_vpc.
Proof.
  intros H.
  specialize (H "111122223333" "eu-west-1" "prod" (Py.List ["10.0.0.0/16"]) aws []).
  vm_compute in H. specialize (H _ eq_refl).
  inversion H as [|x l Hnotin _]; subst. apply Hnotin. now left.
Qed.

(** Discovery on the example account, for the tag list [prod, shared]. *)
Lemma get_vpc_metadata_run_example :
  let l := made (get_vpc_metadata "111122223333" "eu-west-1" "prod, shared"
                   (Py.List ["10.0.0.0/16"]) aws []) in
  describe_vpcs_count l = 2 /\
  length (described_vpcs l) = 2 /\
  map Vpc [{| Vpc := "vpc-1"; Subnet := Some ["sn-1"; "sn-3"];
              Route_Tables := Some ["rtb-1"] |};
           {| Vpc := "vpc-1"; Subnet := Some ["sn-1"; "sn-3"];
              Route_Tables := Some ["rtb-1"] |}]
  = matched_vpcs (tag_list "prod, shared") (described_vpcs l).
Proof.
  apply (get_vpc_metadata_one_call_per_tag_one_record_per_match
           "111122223333" "eu-west-1" "prod, shared" (Py.List ["10.0.0.0/16"]) aws []).
  vm_compute. reflexivity.
Defined.

(** Subnet selection on the example account: [sn-2] shares its zone with
    [sn-1], listed before it, and is left out. *)
Lemma get_subnets_run_example :
  result (get_subnets "vpc-1" "True" aws []) = Ret (Some ["sn-1"; "sn-3"]) /\
  exists az_subnet_mapping : list (string * string),
    ["sn-1"; "sn-3"] = map snd az_subnet_mapping /\
    NoDup (map fst az_subnet_mapping) /\
    forall az id,
      In (az, id) az_subnet_mapping <->
      first_in_zone az (seen_subnets (made (get_subnets "vpc-1" "True" aws []))) = Some id.
Proof.
  split; [vm_compute; reflexivity|].
  apply (get_subnets_one_per_zone "vpc-1" "True" aws [] ["sn-1"; "sn-3"]).
  vm_compute. reflexivity.
Defined.

Lemma aws_returns_requested_tables : returns_requested_tables aws.
Proof.
  intros h [ids|] r; cbn; [|discriminate]. intros [= <-].
  exists (map table ids). split; [reflexivity|]. f_equal.
  rewrite map_map. cbn. apply map_id.
Qed.


(** The tag list of a parameter with spaces: [my tag] is looked for as
    [mytag]. *)
Lemma tag_list_example :
  tag_list "prod, my tag,shared" = ["prod"; "mytag"; "shared"].
Proof. reflexivity. Qed.

(** An event of request type [Reboot]. *)
Lemma lambda_handler_unknown_run :
  result (lambda_handler (lifecycle_event "Reboot") lambda_context aws []) = Ret tt /\
  exists body answer,
    made (lambda_handler (lifecycle_event "Reboot") lambda_context aws [])
    = [(http_put (ResponseURL (lifecycle_event "Reboot")) body, answer)] /\
    Status body = FAILED.
Proof.
  apply (lambda_handler_unknown_request_type (lifecycle_event "Reboot") lambda_context
           aws []); discriminate.
Defined.

(** The role step when the role is there: one call, the listing. *)
Lemma create_service_link_role_second_run :
  result (create_service_link_role aws_with_role []) = Ret tt /\
  made (create_service_link_role aws_with_role [])
  = [(list_roles, Some (RolesResponse [{| RoleName := "Admin" |};
                                        {| RoleName := service_role_name |}]))].
Proof.
  apply (create_service_link_role_check_then_create aws_with_role []
           [{| RoleName := "Admin" |}; {| RoleName := service_role_name |}] eq_refl).
  reflexivity.
Defined.

End Runs.

(* ------------------------------------------------------------------ *)
(** ** More laws *)

Lemma made_bind {A B : Type} (m : M A) (k : A -> M B) boto h :
  made (bind m k boto h)
  = made (m boto h) ++
    match result (m boto h) with
    | Ret a => made (k a boto (h ++ made (m boto h)))
    | Raise => []
    end.
Proof.
  rewrite bind_run. destruct (result (m boto h)); cbn [made snd]; [reflexivity|].
  now rewrite app_nil_r.
Qed.

Lemma result_bind {A B : Type} (m : M A) (k : A -> M B) boto h :
  result (bind m k boto h)
  = match result (m boto h) with
    | Ret a => result (k a boto (h ++ made (m boto h)))
    | Raise => Raise
    end.
Proof. rewrite bind_run. now destruct (result (m boto h)). Qed.

Lemma made_try_except {A : Type} (m handler : M A) boto h :
  made (try_except m handler boto h)
  = made (m boto h) ++
    match result (m boto h) with
    | Ret _ => []
    | Raise => made (handler boto (h ++ made (m boto h)))
    end.
Proof.
  rewrite try_except_run. destruct (result (m boto h)); cbn [made snd]; [|reflexivity].
  now rewrite app_nil_r.
Qed.

(** A [try] whose handler returns never raises. *)
Lemma try_except_returns {A : Type} (m : M A) (a : A) boto h :
  result (try_except m (ret a) boto h) <> Raise.
Proof. rewrite try_except_run. destruct (result (m boto h)); cbn; discriminate. Qed.

(** A loop whose body never raises never raises. *)
Lemma for_in_returns {A S R : Type} (xs : list A) (body : A -> S -> M (ctl S R)) :
  (forall x s boto h, result (body x s boto h) <> Raise) ->
  forall s boto h, result (for_in xs s body boto h) <> Raise.
Proof.
  intros Hb. induction xs as [|x xs IH]; intros s boto h; cbn [for_in]; [discriminate|].
  rewrite result_bind. specialize (Hb x s boto h).
  destruct (result (body x s boto h)) as [[s'|r]|]; [apply IH | discriminate | exact Hb].
Qed.

(** Loops, with the element known to be one of the list. *)
Lemma emits_for_each_in {A : Type} (P : logged -> Prop) (xs : list A)
    (body : A -> M unit) :
  (forall x, In x xs -> emits P (body x)) -> emits P (for_each xs body).
Proof.
  induction xs as [|x xs IH]; intros Hb; cbn [for_each].
  - apply emits_ret.
  - apply emits_bind; [apply Hb; now left | intros _; apply IH].
    intros y Hy. apply Hb. now right.
Qed.

(** A weaker reading of the calls is still a reading of them. *)
Lemma emits_weaken {A : Type} (P Q : logged -> Prop) (m : M A) :
  (forall e, P e -> Q e) -> emits P m -> emits Q m.
Proof. intros HPQ Hm boto h. eapply Forall_impl; [exact HPQ | apply Hm]. Qed.

(* ------------------------------------------------------------------ *)
(** ** The two steps and a missing metadata list *)

Lemma create_transit_gateways_result vpc_metadata tgw_id boto h :
  result (create_transit_gateways vpc_metadata tgw_id boto h)
  = match vpc_metadata with Some _ => Ret tt | None => Raise end.
Proof.
  unfold create_transit_gateways. destruct vpc_metadata as [entries|]; cbn [iterable];
    [|reflexivity].
  rewrite bind_ret_l, result_bind.
  match goal with |- context [result (for_in ?xs ?s ?b boto h)] =>
    pose proof (for_in_returns xs b) as Hloop;
    destruct (result (for_in xs s b boto h)) as [[[]|[]]|] eqn:Hres
  end; [reflexivity | reflexivity | exfalso].
  revert Hres. apply Hloop. clear. intros e [] boto h.
  destruct (Py.truthy (Subnet e)); [apply try_except_returns | discriminate].
Qed.

Lemma create_vpc_route_to_tgw_result vpc_metadata tgw_id cidr boto h :
  result (create_vpc_route_to_tgw vpc_metadata tgw_id cidr boto h)
  = match vpc_metadata with Some _ => Ret tt | None => Raise end.
Proof.
  unfold create_vpc_route_to_tgw. destruct vpc_metadata as [entries|]; cbn [iterable];
    [|reflexivity].
  rewrite bind_ret_l, result_bind.
  match goal with |- context [result (for_in ?xs ?s ?b boto h)] =>
    pose proof (for_in_returns xs b) as Hloop;
    destruct (result (for_in xs s b boto h)) as [[[]|[]]|] eqn:Hres
  end; [reflexivity | reflexivity | exfalso].
  revert Hres. apply Hloop. clear. intros e [] boto h.
  destruct (Py.truthy (Subnet e)); [apply try_except_returns | discriminate].
Qed.

(** X1.  The attachment step and the route step raise exactly when the
    metadata they are given is [None] (what discovery returns after a
    failure), and then before any call; given a list, even one whose every
    call is refused, they return. *)
Theorem steps_raise_exactly_on_missing_metadata vpc_metadata tgw_id cidr boto h :
  (result (create_transit_gateways vpc_metadata tgw_id boto h) = Raise
   <-> vpc_metadata = None) /\
  (result (create_vpc_route_to_tgw vpc_metadata tgw_id cidr boto h) = Raise
   <-> vpc_metadata = None) /\
  made (create_transit_gateways None tgw_id boto h) = [] /\
  made (create_vpc_route_to_tgw None tgw_id cidr boto h) = [].
Proof.
  rewrite create_transit_gateways_result, create_vpc_route_to_tgw_result.
  destruct vpc_metadata; repeat split; try discriminate; reflexivity.
Qed.

(* ------------------------------------------------------------------ *)
(** ** The calls of each step *)

Lemma emits_time_sleep (P : logged -> Prop) (secs : nat) :
  P (sleep secs, Some OtherResponse) -> emits P (time_sleep secs).
Proof. intros HP boto h. cbn. now repeat constructor. Qed.

Lemma role_step_calls : emits role_call create_service_link_role.
Proof.
  unfold create_service_link_role. repeat emits_step; unfold role_call; cbn; auto.
Qed.

Lemma discovery_calls account region vpc_tags blocks :
  emits describe_call (get_vpc_metadata account region vpc_tags (Py.List blocks)).
Proof.
  unfold get_vpc_metadata, get_subnets, get_default_route_table.
  repeat (cbn [Py.eqb]; emits_step); reflexivity.
Qed.

Lemma attachment_step_calls vpc_metadata tgw_id :
  emits (attachment_call tgw_id) (create_transit_gateways vpc_metadata tgw_id).
Proof.
  unfold create_transit_gateways.
  apply emits_bind; [apply emits_iterable | intros entries].
  apply emits_bind.
  - apply emits_for_in. intros e _. destruct (Py.truthy (Subnet e)) eqn:Hsub;
      [|apply emits_ret].
    apply emits_try_except; [|apply emits_ret].
    apply emits_bind; [|intros _; apply emits_ret].
    apply emits_request. intros r. now split.
  - intros [_|_]; [|apply emits_ret]. now apply emits_time_sleep.
Qed.

Lemma route_step_calls vpc_metadata tgw_id blocks :
  emits (route_call tgw_id blocks)
    (create_vpc_route_to_tgw vpc_metadata tgw_id (Py.List blocks)).
Proof.
  unfold create_vpc_route_to_tgw.
  repeat (cbn [Py.eqb Py.iter];
          first [apply emits_for_each_in; intros ? ? | emits_step]);
    unfold route_call; cbn; auto.
Qed.

Lemma send_calls ev ctx status :
  status = SUCCESS \/ status = FAILED ->
  emits (callback_of ev ctx) (send ev ctx status None false).
Proof.
  intros Hs boto h. unfold send, try_except, bind, request, ret, made.
  destruct (boto h _); cbn [snd app]; (constructor; [|constructor]);
    unfold callback_of; cbn [fst Status Reason PhysicalResourceId body_StackId
      body_RequestId body_LogicalResourceId NoEcho]; repeat split; assumption.
Qed.

(* ------------------------------------------------------------------ *)
(** ** The handler, step by step *)

Lemma send_made_length ev ctx status pid noecho boto h :
  length (made (send ev ctx status pid noecho boto h)) = 1.
Proof. destruct (send_run ev ctx status pid noecho boto h) as (b & _ & ->). reflexivity. Qed.

Lemma send_result ev ctx status pid noecho boto h :
  result (send ev ctx status pid noecho boto h) = Ret tt.
Proof. destruct (send_run ev ctx status pid noecho boto h) as (b & _ & ->). reflexivity. Qed.

(** What follows the first callback: the Delete callback or nothing. *)
Lemma second_callback ev ctx boto h :
  let rest := (if Py.mem (RequestType ev) ["Delete"]
               then send ev ctx "SUCCESS" None false else ret tt) boto h in
  Forall (callback_of ev ctx) (made rest) /\ length (made rest) <= 1.
Proof.
  cbv zeta. destruct (Py.mem (RequestType ev) ["Delete"]).
  - split; [apply send_calls; now left | now rewrite send_made_length].
  - split; [constructor | cbn; auto].
Qed.

(** X2.  Whatever the event and whatever the provider does, the calls of a
    handler run come in five stretches, in this order: the role step's
    listing and creation; discovery's describes; the attachment requests,
    each for the event's gateway and a non-empty subnet list, and the wait
    of 90; the route step's describes by table id and its routes, each to
    the event's gateway for a block of the event's CIDR list; and at most
    two callbacks, each a PUT to the event's URL carrying the event's ids.
    The handler never deletes a route. *)
Theorem lambda_handler_calls_in_order ev ctx boto h :
  let tgw_id := Transit_Gateway_Id (ResourceProperties ev) in
  let blocks := Py.split "," (CIDR (ResourceProperties ev)) in
  exists roles discovery attachments routes callbacks,
    made (lambda_handler ev ctx boto h)
    = roles ++ discovery ++ attachments ++ routes ++ callbacks /\
    Forall role_call roles /\
    Forall describe_call discovery /\
    Forall (attachment_call tgw_id) attachments /\
    Forall (route_call tgw_id blocks) routes /\
    Forall (callback_of ev ctx) callbacks /\
    length callbacks <= 2.
Proof.
  cbv zeta. unfold lambda_handler. cbv zeta.
  rewrite made_bind. destruct (Py.mem (RequestType ev) ["Update"; "Create"]).
  - rewrite made_bind, result_bind.
    pose proof (role_step_calls boto h) as H1.
    destruct (result (create_service_link_role boto h)) as [[]|].
    2: { exists (made (create_service_link_role boto h)), [], [], [], [].
         cbn [app]. rewrite !app_nil_r. repeat split; auto. }
    set (h1 := h ++ made (create_service_link_role boto h)).
    rewrite made_bind, result_bind.
    match goal with |- context [made (get_vpc_metadata ?a ?r ?t (Py.List ?b) boto h1)] =>
      pose proof (discovery_calls a r t b boto h1) as H2;
      set (disc := get_vpc_metadata a r t (Py.List b) boto h1) in *
    end.
    destruct (result disc) as [md|].
    2: { exists (made (create_service_link_role boto h)), (made disc), [], [], [].
         cbn [app]. rewrite !app_nil_r. repeat split; auto. }
    set (h2 := h1 ++ made disc).
    rewrite made_bind, result_bind.
    match goal with |- context [made (create_transit_gateways md ?t boto h2)] =>
      pose proof (attachment_step_calls md t boto h2) as H3;
      set (att := create_transit_gateways md t boto h2) in *
    end.
    destruct (result att) as [[]|].
    2: { exists (made (create_service_link_role boto h)), (made disc), (made att), [], [].
         cbn [app]. rewrite !app_nil_r. repeat split; auto. }
    set (h3 := h2 ++ made att).
    rewrite made_bind, result_bind.
    match goal with |- context [made (create_vpc_route_to_tgw md ?t (Py.List ?b) boto h3)] =>
      pose proof (route_step_calls md t b boto h3) as H4;
      set (rou := create_vpc_route_to_tgw md t (Py.List b) boto h3) in *
    end.
    destruct (result rou) as [[]|].
    2: { exists (made (create_service_link_role boto h)), (made disc), (made att),
           (made rou), [].
         cbn [app]. rewrite !app_nil_r. repeat split; auto. }
    set (h4 := h3 ++ made rou).
    rewrite send_result.
    match goal with |- context [(if Py.mem _ ["Delete"] then _ else _) boto ?h5] =>
      destruct (second_callback ev ctx boto h5) as [H6 H7]; cbv zeta in H6, H7
    end.
    exists (made (create_service_link_role boto h)), (made disc), (made att), (made rou).
    eexists. split; [rewrite <- !app_assoc; reflexivity|].
    repeat split; auto.
    + apply Forall_app. split; [apply send_calls; now left | exact H6].
    + rewrite length_app, send_made_length.
      match goal with |- 1 + ?n <= 2 => assert (n <= 1) by exact H7 end.
      apply le_n_S. assumption.
  - rewrite send_result.
    match goal with |- context [(if Py.mem _ ["Delete"] then _ else _) boto ?h5] =>
      destruct (second_callback ev ctx boto h5) as [H6 H7]; cbv zeta in H6, H7
    end.
    exists [], [], [], []. eexists. split; [reflexivity|].
    repeat split; auto.
    + apply Forall_app. split; [apply send_calls; now right | exact H6].
    + rewrite length_app, send_made_length. apply le_n_S. exact H7.
Qed.

Lemma callback_statuses_app (l1 l2 : log) :
  callback_statuses (l1 ++ l2) = callback_statuses l1 ++ callback_statuses l2.
Proof. unfold callback_statuses. apply flat_map_app. Qed.

Lemma mem_not_delete (s : string) :
  Py.mem s ["Update"; "Create"] = true -> Py.mem s ["Delete"] = false.
Proof.
  unfold Py.mem. cbn. rewrite !orb_false_r. intros H.
  apply orb_true_iff in H as [H|H]; apply String.eqb_eq in H; now subst.
Qed.

Lemma get_vpc_metadata_returns account region vpc_tags cidr boto h :
  exists v, result (get_vpc_metadata account region vpc_tags cidr boto h) = Ret v.
Proof.
  unfold get_vpc_metadata. cbv zeta. rewrite result_bind.
  match goal with |- context [result (for_in ?xs ?s ?b boto h)] =>
    pose proof (for_in_returns xs b) as Hloop;
    destruct (result (for_in xs s b boto h)) as [[md|v]|] eqn:Hres
  end; cbn; eauto.
  exfalso. revert Hres. apply Hloop. clear. intros x s boto h. apply try_except_returns.
Qed.

Lemma describe_not_callback e : describe_call e -> not_callback e.
Proof. unfold describe_call, not_callback. now destruct (fst e). Qed.

Lemma attachment_not_callback tgw_id e : attachment_call tgw_id e -> not_callback e.
Proof. unfold attachment_call, not_callback. now destruct (fst e). Qed.

Lemma route_not_callback tgw_id blocks e : route_call tgw_id blocks e -> not_callback e.
Proof. unfold route_call, not_callback. now destruct (fst e). Qed.

(** Runs the outermost sequencing of the goal. *)
Ltac step_bind :=
  match goal with
  | |- context [bind ?m ?k ?b ?h0] =>
      rewrite ?(made_bind m k b h0), ?(result_bind m k b h0)
  end.

(** X3.  A Create or Update event.  The handler returns exactly when the
    role step returns and discovery gives a list; refused attachments and
    routes do not count.  When it returns it has sent one callback, SUCCESS,
    as its last call; when it raises it has sent none.  It never sends
    FAILED. *)
Theorem lambda_handler_create_update_outcome ev ctx boto h :
  Py.mem (RequestType ev) ["Update"; "Create"] = true ->
  let run := lambda_handler ev ctx boto h in
  let discovery :=
    get_vpc_metadata (Account (ResourceProperties ev)) (Region (ResourceProperties ev))
      (Vpc_Tags (ResourceProperties ev))
      (Py.List (Py.split "," (CIDR (ResourceProperties ev))))
      boto (h ++ made (create_service_link_role boto h)) in
  (result run = Ret tt <->
   result (create_service_link_role boto h) = Ret tt /\
   exists md, result discovery = Ret (Some md)) /\
  (result run = Ret tt ->
   callback_statuses (made run) = [SUCCESS] /\
   exists before body answer,
     made run = before ++ [(http_put (ResponseURL ev) body, answer)]) /\
  (result run = Raise -> callback_statuses (made run) = []).
Proof.
  intros Hmem. cbv zeta. unfold lambda_handler. cbv zeta.
  rewrite Hmem, (mem_not_delete _ Hmem).
  step_bind. step_bind.
  pose proof (create_service_link_role_no_callback boto h) as H1.
  destruct (result (create_service_link_role boto h)) as [[]|].
  2: { rewrite ?app_nil_r. repeat split; try discriminate;
         try (now intros _; apply callback_statuses_none).
       now intros [? _]. }
  set (h1 := h ++ made (create_service_link_role boto h)).
  step_bind.
  match goal with |- context [made (get_vpc_metadata ?a ?r ?t (Py.List ?b) boto h1)] =>
    pose proof (discovery_calls a r t b boto h1) as H2;
    destruct (get_vpc_metadata_returns a r t (Py.List b) boto h1) as [md Hmd];
    set (disc := get_vpc_metadata a r t (Py.List b) boto h1) in *
  end.
  apply (Forall_impl _ describe_not_callback) in H2.
  rewrite Hmd. step_bind.
  rewrite create_transit_gateways_result.
  match goal with |- context [made (create_transit_gateways md ?t boto ?h2)] =>
    pose proof (attachment_step_calls md t boto h2) as H3;
    set (att := create_transit_gateways md t boto h2) in *
  end.
  apply (Forall_impl _ (attachment_not_callback _)) in H3.
  destruct md as [md|].
  2: { rewrite !app_nil_r. repeat split; try discriminate.
       - now intros [_ [md [=]]].
       - intros _. rewrite !callback_statuses_app.
         now rewrite !callback_statuses_none by assumption. }
  step_bind. rewrite create_vpc_route_to_tgw_result.
  match goal with |- context [made (create_vpc_route_to_tgw (Some md) ?t (Py.List ?b) boto ?h3)] =>
    pose proof (route_step_calls (Some md) t b boto h3) as H4;
    set (rou := create_vpc_route_to_tgw (Some md) t (Py.List b) boto h3) in *
  end.
  apply (Forall_impl _ (route_not_callback _ _)) in H4.
  rewrite send_result. cbn [ret result made fst snd]. rewrite !app_nil_r.
  match goal with |- context [made (send ev ctx "SUCCESS" None false boto ?h4)] =>
    destruct (send_run ev ctx "SUCCESS" None false boto h4) as (body & Hbody & ->)
  end.
  cbn [made snd]. repeat split; try discriminate; eauto.
  - rewrite !callback_statuses_app.
    rewrite !callback_statuses_none by assumption.
    unfold callback_statuses. cbn. now rewrite Hbody.
  - eexists _, body, _. rewrite !app_assoc. reflexivity.
Qed.

(* ------------------------------------------------------------------ *)
(** ** The attachment step, call by call *)

Lemma attachment_loop_run tgw_id boto (entries : list metadata) :
  forall h,
    let run :=
      for_in entries tt
        (fun entry (_ : unit) =>
           if Py.truthy (Subnet entry) then
             try_except
               (request (create_transit_gateway_vpc_attachment
                           tgw_id (Vpc entry) (Subnet entry)) ;;
                ret (Next tt))
               (ret (@Return unit unit tt))
           else ret (Next tt)) boto h in
    let requests := map (attachment_of tgw_id) (with_subnets entries) in
    (result run = Ret (Next tt) /\
     Forall answered (made run) /\ calls (made run) = requests) \/
    (result run = Ret (Return tt) /\
     ~ Forall answered (made run) /\
     exists n, n < length requests /\ calls (made run) = firstn (S n) requests).
Proof.
  induction entries as [|e entries IH]; intros h; cbv zeta; cbn [for_in].
  - left. cbn. repeat split. constructor.
  - unfold with_subnets. cbn [List.filter]. fold (with_subnets entries).
    step_bind. destruct (Py.truthy (Subnet e)).
    + rewrite try_except_run. step_bind. rewrite request_result, request_made.
      fold (attachment_of tgw_id e).
      destruct (boto h (attachment_of tgw_id e)) as [r|];
        cbn [ret result made fst snd app map].
      * match goal with |- context [for_in entries tt ?b boto ?h1] =>
          specialize (IH h1); cbv zeta in IH;
          set (rest := for_in entries tt b boto h1) in *
        end.
        destruct IH as [(Hr & Ha & Hc)|(Hr & Ha & n & Hn & Hc)]; rewrite Hr; [left|right].
        -- cbn [made result fst snd calls map]. repeat split.
           ++ constructor; [discriminate | exact Ha].
           ++ f_equal. exact Hc.
        -- cbn [made result fst snd calls map app]. repeat split.
           ++ intros Hall. apply Ha. now inversion Hall.
           ++ exists (S n). cbn [length]. split; [now apply le_n_S|].
              cbn [firstn]. f_equal. exact Hc.
      * right. repeat split.
        -- intros Hall. inversion Hall as [|? ? Hx _]; subst. now apply Hx.
        -- exists 0. cbn [length]. split; [apply le_n_S, le_0_n | reflexivity].
    + cbn [ret result made fst snd app].
      match goal with |- context [for_in entries tt ?b boto ?h1] =>
        specialize (IH h1); cbv zeta in IH;
        set (rest := for_in entries tt b boto h1) in *
      end.
      destruct IH as [(Hr & Ha & Hc)|(Hr & Ha & n & Hn & Hc)]; rewrite Hr; [left|right];
        cbn [made result fst snd]; repeat split; eauto.
Qed.

(** X4.  The attachment step on a metadata list.  It asks, in list order,
    for one attachment per entry that has subnets, with the entry's VPC and
    subnets, and for none for an entry whose subnet list is empty or
    [None].  When every request is answered it then waits 90; the first
    request that raises ends the step, without the wait. *)
Theorem create_transit_gateways_requests entries tgw_id boto h :
  let run := create_transit_gateways (Some entries) tgw_id boto h in
  let requests := map (attachment_of tgw_id) (with_subnets entries) in
  (Forall answered (made run) /\ calls (made run) = requests ++ [sleep 90]) \/
  (~ Forall answered (made run) /\
   exists n, n < length requests /\ calls (made run) = firstn (S n) requests).
Proof.
  cbv zeta. unfold create_transit_gateways. cbn [iterable]. rewrite bind_ret_l.
  step_bind.
  match goal with |- context [for_in entries tt ?b boto h] =>
    destruct (attachment_loop_run tgw_id boto entries h)
      as [(Hr & Ha & Hc)|(Hr & Ha & n & Hn & Hc)];
    cbv zeta in Hr, Ha, Hc;
    set (loop := for_in entries tt b boto h) in *
  end; rewrite Hr; cbv beta iota; [left|right].
  - change (made (time_sleep 90 boto _)) with [(sleep 90, Some OtherResponse)].
    split.
    + apply Forall_app. split; [exact Ha|]. repeat constructor. discriminate.
    + unfold calls in *. rewrite map_app. f_equal. exact Hc.
  - change (made (ret tt boto _)) with (@nil logged).
    rewrite app_nil_r. split; [exact Ha|]. now exists n.
Qed.

(* ------------------------------------------------------------------ *)
(** ** The route tables of a VPC *)

Lemma for_each_silent {A : Type} (xs : list A) (body : A -> M unit) boto :
  (forall x h, body x boto h = (Ret tt, [])) ->
  forall h, for_each xs body boto h = (Ret tt, []).
Proof.
  intros Hb. induction xs as [|x xs IH]; intros h; cbn [for_each]; [reflexivity|].
  unfold bind. rewrite Hb, app_nil_r, IH. reflexivity.
Qed.

(** With a list for the CIDR parameter the loops over a table's routes and
    the blocks make no call. *)
Lemma default_route_loop_silent (routes : list route) (blocks : list string) rtid boto h :
  for_each routes
    (fun route =>
       match DestinationCidrBlock route with
       | Some dest =>
           for_each (Py.iter (Py.List blocks))
             (fun block =>
                if Py.eqb (Py.Str dest) (Py.List blocks) then
                  request (delete_route (Py.Str block) rtid) ;; ret tt
                else ret tt)
       | None => ret tt
       end) boto h = (Ret tt, []).
Proof.
  apply for_each_silent. intros ro h'. destruct (DestinationCidrBlock ro); [|reflexivity].
  apply for_each_silent. reflexivity.
Qed.

Lemma default_table_loop_run (blocks : list string) boto (ids : list string) :
  forall h,
    let run :=
      for_each ids
        (fun route_table =>
           describe_routes <-
             request (describe_route_tables_ids (Some [route_table])) ;;
           describe_routes <- get_RouteTables describe_routes ;;
           match describe_routes with
           | [] => raise
           | rt0 :: _ =>
               for_each (Routes rt0)
                 (fun route =>
                    match DestinationCidrBlock route with
                    | Some dest =>
                        for_each (Py.iter (Py.List blocks))
                          (fun block =>
                             if Py.eqb (Py.Str dest) (Py.List blocks) then
                               request (delete_route (Py.Str block)
                                          route_table) ;;
                               ret tt
                             else ret tt)
                    | None => ret tt
                    end)
           end) boto h in
    (result run = Ret tt /\
     calls (made run) = map (fun id => describe_route_tables_ids (Some [id])) ids /\
     Forall (fun e => has_table (snd e)) (made run)) \/
    (result run = Raise /\
     exists before c answer,
       made run = before ++ [(c, answer)] /\ ~ has_table answer).
Proof.
  induction ids as [|id ids IH]; intros h; cbv zeta; cbn [for_each].
  - left. cbn. repeat split. constructor.
  - step_bind. step_bind. rewrite request_result, request_made.
    destruct (boto h (describe_route_tables_ids (Some [id]))) as [r|].
    2: { right. cbn. split; [reflexivity|]. exists [], (describe_route_tables_ids (Some [id])), None.
         split; [reflexivity|]. now intros (? & ? & [=]). }
    cbv beta iota.
    destruct r as [| | |rts|];
      try (right; cbn; split; [reflexivity|];
           eexists [], _, _; split; [reflexivity|]; now intros (? & ? & [=])).
    cbn [get_RouteTables]. rewrite bind_ret_l. destruct rts as [|rt0 rts].
    { right. cbn. split; [reflexivity|]. eexists [], _, _. split; [reflexivity|].
      now intros (? & ? & [=]). }
    rewrite default_route_loop_silent. cbn [made result fst snd app].
    match goal with |- context [for_each ids ?b boto ?h1] =>
      specialize (IH h1); cbv zeta in IH;
      set (rest := for_each ids b boto h1) in *
    end.
    destruct IH as [(Hr & Hc & Ha)|(Hr & before & c & answer & Hm & Hbad)];
      rewrite Hr; [left|right].
    + repeat split.
      * unfold calls in *. cbn [map fst]. f_equal. exact Hc.
      * constructor; [now exists rt0, rts | exact Ha].
    + split; [reflexivity|]. rewrite Hm.
      eexists (_ :: before), c, answer. split; [reflexivity | exact Hbad].
Qed.

(** X5.  [get_default_route_table] with a list for the CIDR parameter.
    When it returns a list, the list is that of the ids of the tables of
    the listing, in listing order, and it has described each of them once,
    in that order, each time getting at least one table back, and made no
    other call.  When it returns [None], the last call it made either
    raised or brought no table back. *)
Theorem get_default_route_table_run returned_vpc blocks vpc_tag boto h :
  let run := get_default_route_table returned_vpc (Py.List blocks) vpc_tag boto h in
  let listing_call :=
    describe_route_tables [("vpc-id", [returned_vpc]);
                           ("association.main", ["false"]);
                           ("tag:tgw-attach", [vpc_tag])] in
  (exists listing,
      boto h listing_call = Some (RouteTablesResponse listing) /\
      result run = Ret (Some (map RouteTableId listing)) /\
      calls (made run)
      = listing_call ::
        map (fun rt => describe_route_tables_ids (Some [RouteTableId rt])) listing /\
      Forall (fun e => has_table (snd e)) (tl (made run))) \/
  (result run = Ret None /\
   exists before c answer,
     made run = before ++ [(c, answer)] /\ ~ has_table answer).
Proof.
  cbv zeta. unfold get_default_route_table. rewrite try_except_run.
  step_bind. rewrite request_result, request_made.
  destruct (boto h (describe_route_tables _)) as [r|].
  2: { right. cbn. split; [reflexivity|]. eexists [], _, None. split; [reflexivity|].
       now intros (? & ? & [=]). }
  cbv beta iota.
  destruct r as [| | |listing|];
    try (right; cbn; split; [reflexivity|];
         eexists [], _, _; split; [reflexivity|]; now intros (? & ? & [=])).
  step_bind. cbn [get_RouteTables ret result made fst snd app]. step_bind.
  match goal with |- context [for_each (map RouteTableId listing) ?b boto ?h1] =>
    destruct (default_table_loop_run blocks boto (map RouteTableId listing) h1)
      as [(Hr & Hc & Ha)|(Hr & before & c & answer & Hm & Hbad)];
    cbv zeta in *;
    set (loop := for_each (map RouteTableId listing) b boto h1) in *
  end; rewrite Hr; cbn [ret result made fst snd app tl]; [left|right].
  - exists listing. rewrite !app_nil_r. repeat split; [|exact Ha].
    unfold calls in *. cbn [map fst]. f_equal. rewrite Hc, map_map. reflexivity.
  - rewrite ?app_nil_r. split; [reflexivity|]. rewrite Hm.
    match goal with |- exists _ _ _, ?x :: _ = _ /\ _ =>
      exists (x :: before), c, answer end.
    split; [reflexivity | exact Hbad].
Qed.

(* ------------------------------------------------------------------ *)
(** ** Subnet selection when a call fails *)

Lemma subnet_loop_outcome boto (subnet_list : list string) :
  forall (m : list (string * string)) h,
    let run :=
      for_fold subnet_list m
        (fun subnet az_subnet_mapping =>
           response <- request (describe_subnets [("subnet-id", [subnet])]) ;;
           subs <- get_Subnets response ;;
           ret (fold_left az_insert subs az_subnet_mapping)) boto h in
    (exists m', result run = Ret m' /\ Forall (fun e => has_subnets (snd e)) (made run)) \/
    (result run = Raise /\
     exists before c answer,
       made run = before ++ [(c, answer)] /\ ~ has_subnets answer).
Proof.
  induction subnet_list as [|sn sns IH]; intros m h; cbv zeta; cbn [for_fold].
  - left. exists m. cbn. split; [reflexivity | constructor].
  - step_bind. step_bind. rewrite request_result, request_made.
    destruct (boto h (describe_subnets [("subnet-id", [sn])])) as [r|].
    2: { right. cbn. split; [reflexivity|]. eexists [], _, None. split; [reflexivity|].
         now intros (? & [=]). }
    cbv beta iota.
    destruct r as [| |subs| |];
      try (right; cbn; split; [reflexivity|];
           eexists [], _, _; split; [reflexivity|]; now intros (? & [=])).
    cbn [get_Subnets]. rewrite bind_ret_l. cbn [ret made result fst snd app].
    match goal with |- context [for_fold sns ?m1 ?b boto ?h1] =>
      specialize (IH m1 h1); cbv zeta in IH;
      set (rest := for_fold sns m1 b boto h1) in *
    end.
    destruct IH as [(m' & Hr & Ha)|(Hr & before & c & answer & Hm & Hbad)];
      rewrite Hr; [left|right].
    + exists m'. split; [reflexivity|]. constructor; [now exists subs | exact Ha].
    + split; [reflexivity|]. rewrite Hm.
      match goal with |- exists _ _ _, ?x :: _ = _ /\ _ =>
        exists (x :: before), c, answer end.
      split; [reflexivity | exact Hbad].
Qed.

(** X6.  [get_subnets] never raises and fails as a whole: it returns a
    list exactly when every describe it made was answered with a listing
    of subnets; otherwise it returns [None], and the call that raised or
    brought no listing is the last one it made. *)
Theorem get_subnets_outcome returned_vpc vpc_tag boto h :
  let run := get_subnets returned_vpc vpc_tag boto h in
  (exists subnets,
      result run = Ret (Some subnets) /\
      Forall (fun e => has_subnets (snd e)) (made run)) \/
  (result run = Ret None /\
   exists before c answer,
     made run = before ++ [(c, answer)] /\ ~ has_subnets answer).
Proof.
  cbv zeta. unfold get_subnets. step_bind. rewrite try_except_run.
  step_bind. rewrite request_result, request_made.
  destruct (boto h (describe_subnets _)) as [r|].
  2: { right. cbn. split; [reflexivity|]. eexists [], _, None. split; [reflexivity|].
       now intros (? & [=]). }
  cbv beta iota.
  destruct r as [| |entries| |];
    try (right; cbn; split; [reflexivity|];
         eexists [], _, _; split; [reflexivity|]; now intros (? & [=])).
  step_bind. cbn [get_Subnets ret result made fst snd app]. step_bind.
  match goal with |- context [for_fold (map SubnetId entries) ?m1 ?b boto ?h1] =>
    destruct (subnet_loop_outcome boto (map SubnetId entries) m1 h1)
      as [(m' & Hr & Ha)|(Hr & before & c & answer & Hm & Hbad)];
    cbv zeta in *;
    set (loop := for_fold (map SubnetId entries) m1 b boto h1) in *
  end; rewrite Hr; cbn [ret result made fst snd app]; [left|right].
  - eexists. split; [reflexivity|]. rewrite !app_nil_r.
    constructor; [now exists entries | exact Ha].
  - rewrite ?app_nil_r. split; [reflexivity|]. rewrite Hm.
    match goal with |- exists _ _ _, ?x :: _ = _ /\ _ =>
      exists (x :: before), c, answer end.
    split; [reflexivity | exact Hbad].
Qed.

(* ------------------------------------------------------------------ *)
(** ** Discovery when a call fails *)

Lemma tag_loop_outcome (cidr : Py.value) boto (tags : list string) :
  forall acc h,
    let run :=
      for_in tags acc
        (fun tag_ returned_metadata =>
           try_except
             (get_vpc_response <- request describe_vpcs ;;
              vpcs <- get_Vpcs get_vpc_response ;;
              returned_metadata <-
                for_fold vpcs returned_metadata
                  (fun vpc returned_metadata =>
                     match Tags vpc with
                     | Some tags =>
                         for_fold tags returned_metadata
                           (fun tag_value returned_metadata =>
                              if String.eqb (Value tag_value) tag_ then
                                subnets <- get_subnets (VpcId vpc) "True" ;;
                                route_tables <-
                                  get_default_route_table (VpcId vpc) cidr "True" ;;
                                ret (returned_metadata ++
                                       [{| Vpc := VpcId vpc;
                                           Subnet := subnets;
                                           Route_Tables := route_tables |}])
                              else ret returned_metadata)
                     | None => ret returned_metadata
                     end) ;;
              ret (Next returned_metadata))
             (ret (@Return (list metadata) (option (list metadata)) None))) boto h in
    (exists md, result run = Ret (Next md)) \/
    (result run = Ret (Return None) /\
     exists before answer,
       made run = before ++ [(describe_vpcs, answer)] /\ ~ has_vpcs answer).
Proof.
  induction tags as [|tag_ tags IH]; intros acc h; cbv zeta; cbn [for_in].
  - left. now exists acc.
  - step_bind. rewrite try_except_run. step_bind. rewrite request_result, request_made.
    destruct (boto h describe_vpcs) as [r|].
    2: { right. cbn. split; [reflexivity|]. exists [], None. split; [reflexivity|].
         now intros (? & [=]). }
    cbv beta iota.
    destruct r as [|vpcs| | |];
      try (right; cbn; split; [reflexivity|];
           eexists [], _; split; [reflexivity|]; now intros (? & [=])).
    step_bind. cbn [get_Vpcs ret result made fst snd app]. step_bind.
    match goal with |- context [for_fold vpcs acc ?b boto ?h0] =>
      destruct (vpc_loop_run tag_ cidr vpcs acc boto h0) as (acc1 & Hr1 & _ & _);
      cbv zeta in Hr1; set (vloop := for_fold vpcs acc b boto h0) in *
    end.
    rewrite Hr1. cbn [ret result made fst snd app]. rewrite !app_nil_r.
    match goal with |- context [for_in tags acc1 ?b boto ?h1] =>
      specialize (IH acc1 h1); cbv zeta in IH;
      set (rest := for_in tags acc1 b boto h1) in *
    end.
    destruct IH as [(md & Hr)|(Hr & before & answer & Hm & Hbad)]; rewrite Hr; [left|right].
    + now exists md.
    + split; [reflexivity|]. cbn [made snd ret]. rewrite Hm.
      match goal with |- exists _ _, ?x :: ?l ++ _ ++ _ = _ /\ _ =>
        exists (x :: l ++ before), answer end.
      split; [|exact Hbad]. cbn [app]. now rewrite <- app_assoc.
Qed.

(** X7.  Discovery, with a list for the CIDR parameter.  It never raises
    and makes describe calls only.  Its first call is a describe-VPCs, also
    when the tag parameter is empty.  It returns a list unless one of its
    describe-VPCs calls raised or brought no listing of VPCs: then it
    returns [None], and that call is the last one it made.  Failures of the
    subnet and route-table lookups do not make it return [None]. *)
Theorem get_vpc_metadata_outcome account region vpc_tags blocks boto h :
  let run := get_vpc_metadata account region vpc_tags (Py.List blocks) boto h in
  Forall describe_call (made run) /\
  (exists rest, made run = (describe_vpcs, boto h describe_vpcs) :: rest) /\
  ((exists md, result run = Ret (Some md)) \/
   (result run = Ret None /\
    exists before answer,
      made run = before ++ [(describe_vpcs, answer)] /\ ~ has_vpcs answer)).
Proof.
  cbv zeta. split; [apply discovery_calls|]. split.
  - unfold get_vpc_metadata. cbv zeta.
    destruct (split_not_nil "," (Py.replace " " "" vpc_tags)) as (w & ws & ->).
    cbn [for_in]. rewrite made_bind, made_bind, made_try_except, made_bind, request_made.
    cbn [app]. eexists. reflexivity.
  - unfold get_vpc_metadata. cbv zeta. step_bind.
    match goal with |- context [for_in ?ts ?acc ?b boto h] =>
      destruct (tag_loop_outcome (Py.List blocks) boto ts acc h)
        as [(md & Hr)|(Hr & before & answer & Hm & Hbad)];
      cbv zeta in *; set (loop := for_in ts acc b boto h) in *
    end; rewrite Hr; cbn [ret result made fst snd]; [left|right].
    + now exists md.
    + rewrite app_nil_r. split; [reflexivity|]. now exists before, answer.
Qed.

(* ------------------------------------------------------------------ *)
(** ** Where the records come from *)

Lemma result_bind_inv {A B : Type} (m : M A) (k : A -> M B) boto h b :
  result (bind m k boto h) = Ret b ->
  exists a, result (m boto h) = Ret a /\
            result (k a boto (h ++ made (m boto h))) = Ret b.
Proof.
  rewrite result_bind. destruct (result (m boto h)) as [a|]; [|discriminate].
  intros Hk. now exists a.
Qed.

Lemma for_fold_invariant {A S : Type} (I : S -> Prop) (xs : list A)
    (body : A -> S -> M S) boto :
  (forall x s h s', I s -> result (body x s boto h) = Ret s' -> I s') ->
  forall s h s', I s -> result (for_fold xs s body boto h) = Ret s' -> I s'.
Proof.
  intros Hb. induction xs as [|x xs IH]; intros s h s' Hs; cbn [for_fold].
  - now intros [= <-].
  - intros Hr. apply result_bind_inv in Hr as (s1 & H1 & H2).
    eapply IH; [|exact H2]. eapply Hb; [exact Hs | exact H1].
Qed.

Lemma for_in_invariant {A S R : Type} (I : S -> Prop) (xs : list A)
    (body : A -> S -> M (ctl S R)) boto :
  (forall x s h s', I s -> result (body x s boto h) = Ret (Next s') -> I s') ->
  forall s h s', I s -> result (for_in xs s body boto h) = Ret (Next s') -> I s'.
Proof.
  intros Hb. induction xs as [|x xs IH]; intros s h s' Hs; cbn [for_in].
  - now intros [= <-].
  - intros Hr. apply result_bind_inv in Hr as ([s1|r] & H1 & H2); [|discriminate H2].
    eapply IH; [|exact H2]. eapply Hb; [exact Hs | exact H1].
Qed.

(** X8.  Every record of the list discovery returns holds, for its VPC,
    what [get_subnets] returned and what [get_default_route_table] returned
    right after it, [None] included: a failed lookup is recorded, not
    dropped. *)
Theorem get_vpc_metadata_records_are_looked_up account region vpc_tags cidr boto h md :
  result (get_vpc_metadata account region vpc_tags cidr boto h) = Ret (Some md) ->
  Forall (looked_up boto cidr) md.
Proof.
  unfold get_vpc_metadata. cbv zeta. intros Hr.
  apply result_bind_inv in Hr as ([md'|v] & Hloop & Hret).
  2: { assert (Hv : v = None); [|subst v; discriminate Hret].
       revert Hloop. clear.
       match goal with |- result (for_in ?ts ?acc ?b boto h) = _ -> _ =>
         apply (for_in_return (fun r => r = None) ts b) end.
       intros x s boto0 h0 r. rewrite try_except_run.
       match goal with
       | |- context [match result ?t with Ret _ => _ | Raise => _ end] =>
           destruct (result t) as [[?|?]|] eqn:Hb
       end; cbn; try congruence.
       apply result_bind_inv in Hb as (? & _ & Hb).
       apply result_bind_inv in Hb as (? & _ & Hb).
       apply result_bind_inv in Hb as (? & _ & Hb). discriminate Hb. }
  injection Hret as <-. revert Hloop.
  apply for_in_invariant; [|constructor].
  intros tag_ s h1 s' Hs. rewrite try_except_run.
  match goal with
  | |- context [match result ?t with Ret _ => _ | Raise => _ end] =>
      destruct (result t) as [c|] eqn:Hb
  end; cbn [result fst ret]; [|discriminate].
  intros [= ->].
  apply result_bind_inv in Hb as (r & _ & Hb).
  apply result_bind_inv in Hb as (vpcs & _ & Hb).
  apply result_bind_inv in Hb as (s1 & Hb & [= <-]).
  revert Hb. apply for_fold_invariant; [|exact Hs].
  intros v s2 h2 s2' Hs2. destruct (Tags v) as [tags|]; [|now intros [= <-]].
  apply for_fold_invariant; [|exact Hs2].
  intros tv s3 h3 s3' Hs3. destruct (String.eqb (Value tv) tag_); [|now intros [= <-]].
  intros Hb. apply result_bind_inv in Hb as (sn & Hsn & Hb).
  apply result_bind_inv in Hb as (rt & Hrt & [= <-]).
  apply Forall_app. split; [exact Hs3|]. constructor; [|constructor].
  exists h3. now split.
Qed.

(* ------------------------------------------------------------------ *)
(** ** The CIDR list *)

Lemma split_length (c : ascii) (s : string) :
  length (Py.split c s) = S (count_char c s).
Proof.
  induction s as [|a s IH]; [reflexivity|]. cbn [Py.split count_char].
  destruct (Ascii.eqb a c); cbn [length]; [now rewrite IH|].
  destruct (Py.split c s) as [|w ws]; [discriminate IH | exact IH].
Qed.

Lemma split_join (c : ascii) (s : string) : join c (Py.split c s) = s.
Proof.
  induction s as [|a s IH]; [reflexivity|]. cbn [Py.split].
  destruct (Ascii.eqb_spec a c) as [->|Hne].
  - destruct (split_not_nil c s) as (w & ws & Hs). rewrite Hs in *.
    change (join c ("" :: w :: ws)) with (String c (join c (w :: ws))).
    now rewrite IH.
  - destruct (Py.split c s) as [|w [|w' ws]]; rewrite <- IH; reflexivity.
Qed.

Lemma split_no_separator (c : ascii) (s w : string) :
  In w (Py.split c s) -> Py.contains c w = false.
Proof.
  revert w. induction s as [|a s IH]; intros w; cbn [Py.split].
  - now intros [<-|[]].
  - destruct (Ascii.eqb a c) eqn:Hac.
    + intros [<-|Hin]; [reflexivity | now apply IH].
    + destruct (Py.split c s) as [|w0 ws].
      * intros [<-|[]]. cbn. now rewrite Hac.
      * intros [<-|Hin]; [|apply IH; now right].
        cbn. rewrite Hac. apply IH. now left.
Qed.

(** X9.  The CIDR list the handler works with ([CIDR.split(",")]): it has
    one block more than the property has commas, so it is never empty; no
    block holds a comma; and the blocks joined by commas give the property
    back, so nothing is trimmed or dropped: a space after a comma stays in
    the block (the tag list, in contrast, has its spaces removed). *)
Theorem cidr_list_keeps_everything (cidr_property : string) :
  let blocks := Py.split "," cidr_property in
  length blocks = S (count_char "," cidr_property) /\
  Forall (fun block => Py.contains "," block = false) blocks /\
  join "," blocks = cidr_property.
Proof.
  cbv zeta. split; [apply split_length|]. split; [|apply split_join].
  apply Forall_forall. intros w. apply split_no_separator.
Qed.

(** X10.  Route reconciliation for the CIDR list of any property: when no
    call raises and the provider describes the tables it is asked for, one
    create-route call is made per listed table of an entry with subnets
    and per block, tables in listing order and blocks in list order, each
    to the gateway; so the number of calls is the number of such tables
    times one more than the number of commas in the property, and even an
    empty property leads to one call per table, for the empty block. *)
Theorem create_vpc_route_to_tgw_routes_per_block
    entries tgw_id cidr_property boto h :
  let blocks := Py.split "," cidr_property in
  let created :=
    create_route_calls
      (made (create_vpc_route_to_tgw (Some entries) tgw_id (Py.List blocks) boto h)) in
  returns_requested_tables boto ->
  Forall answered
    (made (create_vpc_route_to_tgw (Some entries) tgw_id (Py.List blocks) boto h)) ->
  created
  = flat_map (fun rtid => map (fun block => create_route rtid block tgw_id) blocks)
      (eligible_route_tables entries) /\
  length created
  = length (eligible_route_tables entries) * S (count_char "," cidr_property).
Proof.
  cbv zeta. intros Hboto Hall.
  rewrite (create_vpc_route_to_tgw_create_calls _ _ _ _ _ Hboto Hall).
  split; [reflexivity|]. rewrite <- split_length.
  induction (eligible_route_tables entries) as [|rt rts IH]; [reflexivity|].
  cbn [flat_map length]. rewrite length_app, length_map, IH. reflexivity.
Qed.

(* ------------------------------------------------------------------ *)
(** ** The callback sender *)

(** X11.  [send] makes exactly one call, a PUT to the event's URL, and
    returns whether the PUT is answered or raises.  The body carries the
    status and the echo flag it was given and the ids of the event; its
    physical id is the one given, unless that is [None] or empty: then it
    is the name of the log stream. *)
Theorem send_puts_once_and_returns ev ctx status pid noecho boto h :
  exists body,
    send ev ctx status pid noecho boto h
    = (Ret tt, [(http_put (ResponseURL ev) body,
                 boto h (http_put (ResponseURL ev) body))]) /\
    Status body = status /\
    NoEcho body = noecho /\
    Reason body
    = ("See the details in CloudWatch Log Stream: " ++ log_stream_name ctx)%string /\
    body_StackId body = StackId ev /\
    body_RequestId body = RequestId ev /\
    body_LogicalResourceId body = LogicalResourceId ev /\
    PhysicalResourceId body
    = match pid with
      | None | Some EmptyString => log_stream_name ctx
      | Some id => id
      end.
Proof.
  unfold send.
  match goal with |- context [http_put _ ?b] => exists b end.
  split.
  - unfold try_except, bind, request, ret. now destruct (boto h _).
  - cbn. repeat split. now destruct pid as [[|]|].
Qed.

(* ------------------------------------------------------------------ *)
(** ** Logging setup *)

Section LoggingSetup.

Import Logging.

Lemma get_log_levels (k : string) :
  match get [("INFO", 20); ("WARNING", 30); ("ERROR", 40)] k with
  | Some n => n = INFO \/ n = WARNING \/ n = ERROR
  | None => True
  end.
Proof.
  cbn. destruct (String.eqb k "INFO"); [now left|].
  destruct (String.eqb k "WARNING"); [now right; left|].
  destruct (String.eqb k "ERROR"); [now right; right | exact I].
Qed.

(** X12.  [setup_logging], for every environment and every state of the
    logger.  It leaves the level at 20, 30 or 40, so afterwards every
    [log.error] passes.  It lets at most one record through, never one of
    level WARNING: when [logging_level] is not set the level is put to
    ERROR before the two warnings, which are therefore dropped, and nothing
    is logged at all. *)
Theorem setup_logging_levels (env : environ) (root : logger) :
  let root' := setup_logging env root in
  (level root' = INFO \/ level root' = WARNING \/ level root' = ERROR) /\
  (forall msg, records (error msg root') = records root' ++ [(ERROR, msg)]) /\
  (exists new,
      records root' = records root ++ new /\
      length new <= 1 /\
      Forall (fun r => fst r <> WARNING) new /\
      (env "logging_level" = None -> level root' = ERROR /\ new = [])).
Proof.
  cbv zeta. unfold setup_logging. cbv zeta.
  change (match get _ "ERROR" with Some n => n | None => 0 end) with 40.
  destruct (env "logging_level") as [value|].
  - pose proof (get_log_levels (upper value)) as Hget.
    destruct (get _ (upper value)) as [n|].
    + destruct Hget as [ -> | [ -> | -> ] ]; cbn.
      * repeat split; auto. eexists [_]. rewrite app_nil_r || idtac.
        repeat split; auto; try discriminate. repeat constructor. discriminate.
      * repeat split; auto. exists []. rewrite app_nil_r. repeat split; auto; discriminate.
      * repeat split; auto. exists []. rewrite app_nil_r. repeat split; auto; discriminate.
    + cbn. repeat split; auto. eexists [_]. repeat split; auto; try discriminate.
      repeat constructor. discriminate.
  - cbn. repeat split; auto. exists []. rewrite app_nil_r. repeat split; auto.
Qed.

End LoggingSetup.

(* ------------------------------------------------------------------ *)
(** ** The role step when IAM fails *)

(** X13.  [create_service_link_role] catches nothing: it raises exactly
    when the listing raises or brings no roles, or when the role is not
    listed and its creation raises.  It makes the listing call first and at
    most one more call. *)
Theorem create_service_link_role_raises boto h :
  let run := create_service_link_role boto h in
  let creation := create_service_linked_role "transitgateway.amazonaws.com" in
  (exists rest, made run = (list_roles, boto h list_roles) :: rest /\ length rest <= 1) /\
  (result run = Raise <->
   (forall roles, boto h list_roles <> Some (RolesResponse roles)) \/
   (In (creation, None) (made run))).
Proof.
  cbv zeta. unfold create_service_link_role, bind, request, made, result.
  destruct (boto h list_roles) as [r|]; cbn.
  2: { split; [exists []; split; [reflexivity | cbn; auto]|].
       split; [intros _; left; discriminate | reflexivity]. }
  destruct r as [roles| | | |]; cbn;
    try (split; [exists []; split; [reflexivity | cbn; auto]|];
         split; [intros _; left; discriminate | reflexivity]).
  destruct (fold_left _ roles false); cbn.
  - split; [exists []; split; [reflexivity | cbn; auto]|]. split; [discriminate|].
    intros [H|[H|[]]]; [now contradiction (H roles) | discriminate H].
  - destruct (boto _ (create_service_linked_role _)) as [r|]; cbn.
    + split; [eexists [_]; split; [reflexivity | cbn; auto]|]. split; [discriminate|].
      intros [H|[H|[H|[]]]]; [now contradiction (H roles) | discriminate H ..].
    + split; [eexists [_]; split; [reflexivity | cbn; auto]|].
      split; [intros _; right; right; now left | reflexivity].
Qed.

(* ------------------------------------------------------------------ *)
(** ** The first call of the route step *)

(** X14.  The route step makes no call at all when no entry has subnets.
    Otherwise its first call describes the route tables of the first entry
    that has subnets, passing the entry's table list as it is recorded,
    also when that is empty or [None]. *)
Theorem create_vpc_route_to_tgw_first_call entries tgw_id cidr boto h :
  made (create_vpc_route_to_tgw (Some entries) tgw_id cidr boto h)
  = match with_subnets entries with
    | [] => []
    | entry :: _ =>
        (describe_route_tables_ids (Route_Tables entry),
         boto h (describe_route_tables_ids (Route_Tables entry)))
        :: tl (made (create_vpc_route_to_tgw (Some entries) tgw_id cidr boto h))
    end.
Proof.
  unfold create_vpc_route_to_tgw. cbn [iterable]. rewrite bind_ret_l.
  induction entries as [|e entries IH]; [reflexivity|].
  unfold with_subnets. cbn [List.filter for_in]. fold (with_subnets entries).
  destruct (Py.truthy (Subnet e)).
  - rewrite made_bind, made_bind, made_try_except, made_bind, request_made. reflexivity.
  - rewrite made_bind, bind_ret_l. rewrite made_bind in IH. exact IH.
Qed.

(* ------------------------------------------------------------------ *)
(** ** The tags discovery looks for *)

(** When every describe-VPCs call is answered with a listing, the loop
    over the tags runs to its end. *)
Lemma tag_loop_answered (cidr : Py.value) boto (tags : list string) :
  (forall h', has_vpcs (boto h' describe_vpcs)) ->
  forall acc h,
    exists md,
      result
        (for_in tags acc
           (fun tag_ returned_metadata =>
              try_except
                (get_vpc_response <- request describe_vpcs ;;
                 vpcs <- get_Vpcs get_vpc_response ;;
                 returned_metadata <-
                   for_fold vpcs returned_metadata
                     (fun vpc returned_metadata =>
                        match Tags vpc with
                        | Some tags =>
                            for_fold tags returned_metadata
                              (fun tag_value returned_metadata =>
                                 if String.eqb (Value tag_value) tag_ then
                                   subnets <- get_subnets (VpcId vpc) "True" ;;
                                   route_tables <-
                                     get_default_route_table (VpcId vpc) cidr "True" ;;
                                   ret (returned_metadata ++
                                          [{| Vpc := VpcId vpc;
                                              Subnet := subnets;
                                              Route_Tables := route_tables |}])
                                 else ret returned_metadata)
                        | None => ret returned_metadata
                        end) ;;
                 ret (Next returned_metadata))
                (ret (@Return (list metadata) (option (list metadata)) None))) boto h)
      = Ret (Next md).
Proof.
  intros Hboto. induction tags as [|tag_ tags IH]; intros acc h; cbn [for_in].
  - now exists acc.
  - step_bind. rewrite try_except_run. step_bind. rewrite request_result, request_made.
    destruct (Hboto h) as [vpcs ->]. cbv beta iota.
    step_bind. cbn [get_Vpcs ret result made fst snd app]. step_bind.
    match goal with |- context [for_fold vpcs acc ?b boto ?h0] =>
      destruct (vpc_loop_run tag_ cidr vpcs acc boto h0) as (acc1 & Hr1 & _ & _);
      cbv zeta in Hr1; set (vloop := for_fold vpcs acc b boto h0) in *
    end.
    rewrite Hr1. cbn [ret result made fst snd app]. rewrite !app_nil_r.
    match goal with |- context [for_in tags acc1 ?b boto ?h1] =>
      destruct (IH acc1 h1) as [md Hr]
    end.
    rewrite Hr. now exists md.
Qed.

Lemma flat_map_filter {A B : Type} (f : A -> list B) (p : A -> bool) (xs : list A) :
  (forall x, p x = false -> f x = []) ->
  flat_map f (List.filter p xs) = flat_map f xs.
Proof.
  intros Hf. induction xs as [|x xs IH]; [reflexivity|]. cbn [List.filter flat_map].
  destruct (p x) eqn:Hp; cbn [flat_map]; [now rewrite IH|]. now rewrite (Hf x Hp), IH.
Qed.

(** A tag without a space matches the same tags of a VPC whether or not
    the VPC's tags with a space in their value are there. *)
Lemma vpc_matches_drop_spaced (tag_ : string) (vpcs : list vpc) :
  Py.contains " " tag_ = false ->
  vpc_matches tag_ (map drop_spaced_tags vpcs) = vpc_matches tag_ vpcs.
Proof.
  intros Htag. unfold vpc_matches. rewrite flat_map_concat_map, map_map,
    <- flat_map_concat_map.
  apply flat_map_ext. intros v. unfold vpc_tags_of, drop_spaced_tags. cbn [VpcId Tags].
  destruct (Tags v) as [tags|]; [|reflexivity]. cbn [option_map].
  apply flat_map_filter. intros tv Hsp. apply negb_false_iff in Hsp.
  destruct (String.eqb_spec (Value tv) tag_) as [Heq|_]; [|reflexivity].
  rewrite Heq, Htag in Hsp. discriminate.
Qed.

Lemma matched_vpcs_drop_spaced (tags : list string) :
  Forall (fun tag_ => Py.contains " " tag_ = false) tags ->
  forall listings,
    matched_vpcs tags (map (map drop_spaced_tags) listings) = matched_vpcs tags listings.
Proof.
  induction 1 as [|t tags Ht _ IH]; intros listings; [reflexivity|].
  destruct listings as [|l ls]; [reflexivity|].
  unfold matched_vpcs in *. cbn [map combine flat_map fst snd].
  now rewrite IH, vpc_matches_drop_spaced.
Qed.

(** C10.  [get_vpc_metadata] looks for the pieces, between commas, of the
    tag parameter with every space removed.  When its describe-VPCs calls
    are answered it returns a list, whose records are the matches of these
    pieces, one listing per piece.  No piece holds a space, so a tag value
    that holds one equals none of them: the records are the same as if the
    VPCs had no tag with a space in its value, and there is none when every
    tag value holds a space. *)
Theorem vpc_tags_are_matched_without_spaces account region vpc_tags cidr boto h :
  (forall h', has_vpcs (boto h' describe_vpcs)) ->
  let run := get_vpc_metadata account region vpc_tags cidr boto h in
  let tags := Py.split "," (Py.replace " " "" vpc_tags) in
  let listings := described_vpcs (made run) in
  exists md,
    result run = Ret (Some md) /\
    length listings = length tags /\
    map Vpc md = matched_vpcs tags listings /\
    Forall (fun tag_ => Py.contains " " tag_ = false) tags /\
    (forall tag_ value,
        In tag_ tags -> Py.contains " " value = true -> String.eqb value tag_ = false) /\
    map Vpc md = matched_vpcs tags (map (map drop_spaced_tags) listings) /\
    ((forall vpcs v tag_value,
         In vpcs listings -> In v vpcs -> In tag_value (vpc_tags_of v) ->
         Py.contains " " (Value tag_value) = true) ->
     md = []).
Proof.
  intros Hboto. cbv zeta.
  change (Py.split "," (Py.replace " " "" vpc_tags)) with (tag_list vpc_tags).
  assert (Hsome : exists md,
             result (get_vpc_metadata account region vpc_tags cidr boto h) = Ret (Some md)).
  { unfold get_vpc_metadata. cbv zeta. step_bind.
    match goal with |- context [for_in ?ts ?acc ?b boto h] =>
      destruct (tag_loop_answered cidr boto ts Hboto acc h) as [md Hr];
      set (loop := for_in ts acc b boto h) in *
    end.
    rewrite Hr. now exists md. }
  destruct Hsome as [md Hmd]. exists md.
  destruct (get_vpc_metadata_run account region vpc_tags cidr boto h md Hmd)
    as (_ & Hlen & Hrec).
  assert (Hclean : Forall (fun tag_ => Py.contains " " tag_ = false) (tag_list vpc_tags)).
  { apply Forall_forall. intros t. apply tag_list_no_space. }
  assert (Hne : forall tag_ value,
             In tag_ (tag_list vpc_tags) ->
             Py.contains " " value = true -> String.eqb value tag_ = false).
  { intros t v Hin Hv. apply String.eqb_neq. intros ->.
    rewrite (tag_list_no_space _ _ Hin) in Hv. discriminate. }
  repeat split; try assumption.
  - now rewrite matched_vpcs_drop_spaced.
  - intros Hsp. apply (map_eq_nil Vpc). rewrite Hrec. unfold matched_vpcs.
    apply flat_map_nil. intros [t vpcs] Hin. cbn [fst snd].
    unfold vpc_matches. apply flat_map_nil. intros v Hv.
    apply flat_map_nil. intros tv Htv.
    rewrite (Hne t (Value tv)); [reflexivity | now apply in_combine_l in Hin |].
    apply (Hsp vpcs v tv); [now apply in_combine_r in Hin | exact Hv | exact Htv].
Qed.

(* ------------------------------------------------------------------ *)
(** ** More runs on the example account *)

Section MoreRuns.

Import Example Example2.

(** A Create event on the example account: the handler returns, and its
    one callback is SUCCESS. *)
Lemma lambda_handler_create_run :
  result (lambda_handler (lifecycle_event "Create") lambda_context aws []) = Ret tt /\
  callback_statuses
    (made (lambda_handler (lifecycle_event "Create") lambda_context aws []))
  = [SUCCESS].
Proof.
  split; [vm_compute; reflexivity|].
  apply (proj1 (proj2 (lambda_handler_create_update_outcome
                         (lifecycle_event "Create") lambda_context aws [] eq_refl))).
  vm_compute. reflexivity.
Defined.

(** The same event when every attachment is refused: the wait is left
    out, the routes are created all the same, and the callback is still
    SUCCESS. *)
Lemma lambda_handler_attachments_denied_run :
  List.filter (fun c => negb (is_describe c) && negb (is_role_call c))
    (calls (made (lambda_handler (lifecycle_event "Create") lambda_context
                    aws_attachments_denied [])))
  = [create_transit_gateway_vpc_attachment "tgw-1" "vpc-1" (Some ["sn-1"; "sn-3"]);
     create_route "rtb-1" "10.0.0.0/16" "tgw-1";
     create_route "rtb-1" "192.168.1.0/24" "tgw-1";
     create_route "rtb-1" "10.0.0.0/16" "tgw-1";
     create_route "rtb-1" "192.168.1.0/24" "tgw-1";
     http_put "https://cloudformation.example/response"
       {| Status := "SUCCESS";
          Reason := "See the details in CloudWatch Log Stream: 2021/03/25/stream";
          PhysicalResourceId := "2021/03/25/stream";
          body_StackId := "stack-1";
          body_RequestId := "request-1";
          body_LogicalResourceId := "TgwAttachment";
          NoEcho := false |}].
Proof. vm_compute. reflexivity. Qed.

(** The records of discovery on the example account. *)
Lemma get_vpc_metadata_records_example :
  Forall (looked_up aws (Py.List ["10.0.0.0/16"]))
    [{| Vpc := "vpc-1"; Subnet := Some ["sn-1"; "sn-3"]; Route_Tables := Some ["rtb-1"] |};
     {| Vpc := "vpc-1"; Subnet := Some ["sn-1"; "sn-3"]; Route_Tables := Some ["rtb-1"] |}].
Proof.
  apply (get_vpc_metadata_records_are_looked_up "111122223333" "eu-west-1" "prod"
           (Py.List ["10.0.0.0/16"]) aws []).
  vm_compute. reflexivity.
Defined.

(** The routes for the CIDR property of the example event: four tables,
    two blocks. *)
Lemma create_vpc_route_to_tgw_count_example :
  length
    (create_route_calls
       (made (create_vpc_route_to_tgw (Some [entry_a; entry_d; entry_b; entry_c]) "tgw-1"
                (Py.List (Py.split "," "10.0.0.0/16,192.168.1.0/24")) aws [])))
  = 4 * 2.
Proof.
  apply (create_vpc_route_to_tgw_routes_per_block
           [entry_a; entry_d; entry_b; entry_c] "tgw-1" "10.0.0.0/16,192.168.1.0/24"
           aws [] aws_returns_requested_tables).
  vm_compute. repeat (apply Forall_cons; [discriminate|]). apply Forall_nil.
Defined.

(** The attachment step with [vpc-b] refused: [vpc-a] and [vpc-b] are
    asked for, [vpc-d] has no subnets, [vpc-c] is not reached. *)
Lemma create_transit_gateways_denied_example :
  calls (made (create_transit_gateways (Some [entry_a; entry_d; entry_b; entry_c]) "tgw-1"
                 aws_vpc_b_denied []))
  = firstn 2 (map (attachment_of "tgw-1") (with_subnets [entry_a; entry_d; entry_b; entry_c])).
Proof. vm_compute. reflexivity. Qed.

(** Logging setup: [info] is recognised whatever its case; [verbose] is
    not, and gives ERROR and one error record; without the variable nothing
    is logged. *)
Lemma setup_logging_examples :
  Logging.setup_logging env_info fresh_logger
  = {| Logging.level := 20;
       Logging.records := [(20, "Logging setup complete - set to log level 20")] |} /\
  Logging.setup_logging env_verbose fresh_logger
  = {| Logging.level := 40;
       Logging.records := [(40, Logging.unrecognised_message)] |} /\
  Logging.setup_logging env_empty fresh_logger
  = {| Logging.level := 40; Logging.records := [] |}.
Proof. repeat split; vm_compute; reflexivity. Qed.

(** Discovery for the tag parameter [my tag]: the tag looked for is
    [mytag], so [vpc-t] is found and [vpc-s], tagged [my tag], is not. *)
Lemma get_vpc_metadata_spaced_tag_example :
  tag_list "my tag" = ["mytag"] /\
  option_map (map Vpc)
    match result (get_vpc_metadata "111122223333" "eu-west-1" "my tag"
                    (Py.List ["10.0.0.0/16"]) aws_spaced_tags []) with
    | Ret md => md
    | Raise => None
    end
  = Some ["vpc-t"].
Proof. split; vm_compute; reflexivity. Qed.

(** The same run, read through the theorem. *)
Lemma vpc_tags_are_matched_without_spaces_run :
  let run := get_vpc_metadata "111122223333" "eu-west-1" "my tag"
               (Py.List ["10.0.0.0/16"]) aws_spaced_tags [] in
  let tags := Py.split "," (Py.replace " " "" "my tag") in
  let listings := described_vpcs (made run) in
  exists md,
    result run = Ret (Some md) /\
    length listings = length tags /\
    map Vpc md = matched_vpcs tags listings /\
    Forall (fun tag_ => Py.contains " " tag_ = false) tags /\
    (forall tag_ value,
        In tag_ tags -> Py.contains " " value = true -> String.eqb value tag_ = false) /\
    map Vpc md = matched_vpcs tags (map (map drop_spaced_tags) listings) /\
    ((forall vpcs v tag_value,
         In vpcs listings -> In v vpcs -> In tag_value (vpc_tags_of v) ->
         Py.contains " " (Value tag_value) = true) ->
     md = []).
Proof.
  apply (vpc_tags_are_matched_without_spaces "111122223333" "eu-west-1" "my tag"
           (Py.List ["10.0.0.0/16"]) aws_spaced_tags []).
  intros h'. eexists. reflexivity.
Defined.


(** The calls on [rtb-1] in the first of these runs. *)
Lemma four_routes_for_rtb_1 :
  on_table "rtb-1"
    (create_route_calls
       (made (create_vpc_route_to_tgw (Some discovered) "tgw-1"
                (Py.List ["10.0.0.0/16"; "192.168.1.0/24"]) aws [])))
  = [create_route "rtb-1" "10.0.0.0/16" "tgw-1";
     create_route "rtb-1" "192.168.1.0/24" "tgw-1";
     create_route "rtb-1" "10.0.0.0/16" "tgw-1";
     create_route "rtb-1" "192.168.1.0/24" "tgw-1"].
Proof. vm_compute. reflexivity. Qed.

(** [discovered] is what discovery returns on the example account. *)
Lemma discovered_is_discovered :
  result (get_vpc_metadata "111122223333" "eu-west-1" "prod"
            (Py.List ["10.0.0.0/16"; "192.168.1.0/24"]) aws [])
  = Ret (Some discovered).
Proof. vm_compute. reflexivity. Qed.

End MoreRuns.
